(** * To-do list with Firestore persistence (script.js)

    A shallow embedding of the page script: the module-level variables and
    the DOM nodes it keeps handles to form an explicit [State]; every
    function of the script is a function on that state.  Calls that leave
    the page (Firestore, Firebase Auth, the console, [setTimeout]) are
    recorded in traces carried by the state; what the outside world answers
    (the clock, a settled promise, a snapshot) is an argument.

    The state describes the page once [initializeAppAndAuth] has bound
    [messageBox] and [userIdDisplay] and the DOMContentLoaded handler has
    bound [taskInput] and [taskList]. *)

From Stdlib Require Import List ZArith NArith Bool String Ascii Lia.
From Stdlib Require Import Permutation Sorted DecimalString.
Import ListNotations.

(* ===================================================================== *)
(** ** JavaScript strings *)
(* ===================================================================== *)

(** A JavaScript string is a sequence of UTF-16 code units. *)
Module JsString.

Definition t := list N.

Definition of_string (s : string) : t :=
  map N_of_ascii (list_ascii_of_string s).

(** [String(n)] for a non-negative integer: its decimal digits. *)
Definition of_nat (n : nat) : t :=
  of_string (NilEmpty.string_of_uint (Nat.to_uint n)).

Fixpoint eqb (a b : t) : bool :=
  match a, b with
  | [], [] => true
  | x :: a', y :: b' => N.eqb x y && eqb a' b'
  | _, _ => false
  end.

(** WhiteSpace and LineTerminator code points of ECMA-262, the ones
    [String.prototype.trim] strips: TAB, LF, VT, FF, CR, SP, NBSP,
    U+1680, U+2000..U+200A, LS, PS, U+202F, U+205F, U+3000, U+FEFF. *)
Definition isWhiteSpace (c : N) : bool :=
  (existsb (N.eqb c)
     [9; 10; 11; 12; 13; 32; 160; 5760; 8232; 8233; 8239; 8287; 12288; 65279]
   || ((8192 <=? c) && (c <=? 8202)))%N.

Fixpoint trimStart (s : t) : t :=
  match s with
  | [] => []
  | c :: r => if isWhiteSpace c then trimStart r else s
  end.

Definition trimEnd (s : t) : t := rev (trimStart (rev s)).

Definition trim (s : t) : t := trimEnd (trimStart s).

(** ToBoolean on a string: only the empty string is falsy. *)
Definition truthy (s : t) : bool :=
  match s with [] => false | _ :: _ => true end.

End JsString.

(** A string literal of the script. *)
Definition js (s : string) : JsString.t := JsString.of_string s.

Arguments js s : simpl never.

(* ===================================================================== *)
(** ** Data *)
(* ===================================================================== *)

(** What [doc.data()] holds for a document of the tasks collection: the
    object [addTask] hands to [addDoc]. *)
Record DocumentData := {
  data_text : JsString.t;
  data_createdAt : Z
}.

(** A document of a query snapshot. *)
Record QueryDocumentSnapshot := {
  doc_id : JsString.t;
  doc_data : DocumentData
}.

(** [{ id: doc.id, ...doc.data() }] *)
Record Task := {
  id : JsString.t;
  text : JsString.t;
  createdAt : Z
}.

Definition task_of_doc (d : QueryDocumentSnapshot) : Task :=
  {| id := doc_id d;
     text := data_text (doc_data d);
     createdAt := data_createdAt (doc_data d) |}.

(** The error object a rejected promise or an error callback carries. *)
Inductive JsError := MkJsError (message : JsString.t).

(** How an awaited promise settles. *)
Inductive Settled :=
| Fulfilled
| Rejected (e : JsError).

(** The handle [getFirestore] returns. *)
Inductive Firestore := FirestoreHandle.

(** Calls made to the Firestore SDK. *)
Inductive StoreRequest :=
| AddDoc (path : JsString.t) (text : JsString.t) (createdAt : Z)
| DeleteDoc (path : JsString.t) (docId : JsString.t)
| OnSnapshot (path : JsString.t).

(** Calls made to Firebase Auth. *)
Inductive AuthRequest :=
| SignInWithCustomToken (token : JsString.t)
| SignInAnonymously.

Inductive ConsoleEntry :=
| ConsoleWarn (msg : JsString.t)
| ConsoleError (msg : JsString.t) (e : JsError).

(** The style and content of the message box. *)
Record MessageBox := {
  mb_textContent : JsString.t;
  mb_backgroundColor : JsString.t;
  mb_color : JsString.t;
  mb_border : JsString.t;
  mb_display : JsString.t
}.

(** The <button> of a list item; its click handler is a closure over the
    task the item was created for. *)
Record RemoveButton := {
  btn_textContent : JsString.t;
  btn_className : JsString.t;
  btn_onclick : Task
}.

(** The <li> of a task. *)
Record TaskElement := {
  li_data_doc_id : JsString.t;
  li_textContent : JsString.t;
  li_removeButton : RemoveButton
}.

Record State := {
  (* module variables *)
  db : option Firestore;
  userId : option JsString.t;
  isAuthReady : bool;
  (* DOM *)
  taskInput_value : JsString.t;
  taskList : list TaskElement;
  messageBox : MessageBox;
  userIdDisplay : JsString.t;
  (* the world outside the page *)
  timers : nat;
  console : list ConsoleEntry;
  firestore : list StoreRequest;
  authentication : list AuthRequest;
  (* every call of showMessage, oldest first *)
  shown : list (JsString.t * bool)
}.

Definition set_userId (v : option JsString.t) (st : State) : State :=
  {| db := db st; userId := v; isAuthReady := isAuthReady st;
     taskInput_value := taskInput_value st; taskList := taskList st;
     messageBox := messageBox st; userIdDisplay := userIdDisplay st;
     timers := timers st; console := console st; firestore := firestore st;
     authentication := authentication st; shown := shown st |}.

Definition set_isAuthReady (v : bool) (st : State) : State :=
  {| db := db st; userId := userId st; isAuthReady := v;
     taskInput_value := taskInput_value st; taskList := taskList st;
     messageBox := messageBox st; userIdDisplay := userIdDisplay st;
     timers := timers st; console := console st; firestore := firestore st;
     authentication := authentication st; shown := shown st |}.

Definition set_taskInput_value (v : JsString.t) (st : State) : State :=
  {| db := db st; userId := userId st; isAuthReady := isAuthReady st;
     taskInput_value := v; taskList := taskList st;
     messageBox := messageBox st; userIdDisplay := userIdDisplay st;
     timers := timers st; console := console st; firestore := firestore st;
     authentication := authentication st; shown := shown st |}.

Definition set_taskList (v : list TaskElement) (st : State) : State :=
  {| db := db st; userId := userId st; isAuthReady := isAuthReady st;
     taskInput_value := taskInput_value st; taskList := v;
     messageBox := messageBox st; userIdDisplay := userIdDisplay st;
     timers := timers st; console := console st; firestore := firestore st;
     authentication := authentication st; shown := shown st |}.

Definition set_messageBox (v : MessageBox) (st : State) : State :=
  {| db := db st; userId := userId st; isAuthReady := isAuthReady st;
     taskInput_value := taskInput_value st; taskList := taskList st;
     messageBox := v; userIdDisplay := userIdDisplay st;
     timers := timers st; console := console st; firestore := firestore st;
     authentication := authentication st; shown := shown st |}.

Definition set_userIdDisplay (v : JsString.t) (st : State) : State :=
  {| db := db st; userId := userId st; isAuthReady := isAuthReady st;
     taskInput_value := taskInput_value st; taskList := taskList st;
     messageBox := messageBox st; userIdDisplay := v;
     timers := timers st; console := console st; firestore := firestore st;
     authentication := authentication st; shown := shown st |}.

Definition set_timers (v : nat) (st : State) : State :=
  {| db := db st; userId := userId st; isAuthReady := isAuthReady st;
     taskInput_value := taskInput_value st; taskList := taskList st;
     messageBox := messageBox st; userIdDisplay := userIdDisplay st;
     timers := v; console := console st; firestore := firestore st;
     authentication := authentication st; shown := shown st |}.

Definition set_console (v : list ConsoleEntry) (st : State) : State :=
  {| db := db st; userId := userId st; isAuthReady := isAuthReady st;
     taskInput_value := taskInput_value st; taskList := taskList st;
     messageBox := messageBox st; userIdDisplay := userIdDisplay st;
     timers := timers st; console := v; firestore := firestore st;
     authentication := authentication st; shown := shown st |}.

Definition set_firestore (v : list StoreRequest) (st : State) : State :=
  {| db := db st; userId := userId st; isAuthReady := isAuthReady st;
     taskInput_value := taskInput_value st; taskList := taskList st;
     messageBox := messageBox st; userIdDisplay := userIdDisplay st;
     timers := timers st; console := console st; firestore := v;
     authentication := authentication st; shown := shown st |}.

Definition set_authentication (v : list AuthRequest) (st : State) : State :=
  {| db := db st; userId := userId st; isAuthReady := isAuthReady st;
     taskInput_value := taskInput_value st; taskList := taskList st;
     messageBox := messageBox st; userIdDisplay := userIdDisplay st;
     timers := timers st; console := console st; firestore := firestore st;
     authentication := v; shown := shown st |}.

Definition set_shown (v : list (JsString.t * bool)) (st : State) : State :=
  {| db := db st; userId := userId st; isAuthReady := isAuthReady st;
     taskInput_value := taskInput_value st; taskList := taskList st;
     messageBox := messageBox st; userIdDisplay := userIdDisplay st;
     timers := timers st; console := console st; firestore := firestore st;
     authentication := authentication st; shown := v |}.

(* ===================================================================== *)
(** ** Array.prototype.sort *)
(* ===================================================================== *)

(** [arr.sort(comparefn)].  ECMA-262 leaves the algorithm to the engine but
    fixes the outcome for a consistent comparator: a stable sort, in which
    [x] stays before [y] unless [comparefn(x, y) > 0].  The embedding is a
    stable insertion sort; [stable_sort_unique] below shows that for the
    comparator of the script every stable sort yields the same array. *)
Section ArraySort.

Variable A : Type.
Variable comparefn : A -> A -> Z.

Fixpoint insert (x : A) (l : list A) : list A :=
  match l with
  | [] => [x]
  | y :: r => if (0 <? comparefn x y)%Z then y :: insert x r else x :: l
  end.

Definition Array_sort (l : list A) : list A := fold_right insert [] l.

End ArraySort.

Arguments insert {A} comparefn x l.
Arguments Array_sort {A} comparefn l.

(** [(a, b) => a.createdAt - b.createdAt] *)
Definition byCreatedAt (a b : Task) : Z := (createdAt a - createdAt b)%Z.

(** Ascending by [createdAt]. *)
Definition ascending (l : list Task) : Prop :=
  StronglySorted (fun a b => (createdAt a <= createdAt b)%Z) l.

(** The tasks of [l] created at [k], in the order they have in [l]. *)
Definition createdAtIs (k : Z) (l : list Task) : list Task :=
  filter (fun t => (createdAt t =? k)%Z) l.

(* ===================================================================== *)
(** ** The functions of the script *)
(* ===================================================================== *)

(** An async function either runs to its end or is parked at its [await];
    the state is the one reached so far. *)
Inductive Step :=
| Finished (st : State)
| Awaiting (st : State).

Definition state_of (s : Step) : State :=
  match s with Finished st | Awaiting st => st end.

(** Runs the rest of an async function as soon as its promise settles, with
    no other event in between. *)
Definition complete (k : Settled -> State -> State) (r : Settled) (s : Step)
  : State :=
  match s with
  | Finished st => st
  | Awaiting st => k r st
  end.

Record User := { uid : JsString.t }.

Definition console_warn (msg : JsString.t) (st : State) : State :=
  set_console (console st ++ [ConsoleWarn msg]) st.

Definition console_error (msg : JsString.t) (e : JsError) (st : State) : State :=
  set_console (console st ++ [ConsoleError msg e]) st.

(** [showMessage(text, isError = true)]; the [setTimeout] callback is
    [hideMessage]. *)
Definition showMessage (text : JsString.t) (isError : bool) (st : State) : State :=
  let box :=
    if isError then
      {| mb_textContent := text;
         mb_backgroundColor := js "#f8d7da";
         mb_color := js "#721c24";
         mb_border := js "1px solid #f5c6cb";
         mb_display := js "block" |}
    else
      {| mb_textContent := text;
         mb_backgroundColor := js "#d4edda";
         mb_color := js "#155724";
         mb_border := js "1px solid #c3e6cb";
         mb_display := js "block" |} in
  set_shown (shown st ++ [(text, isError)])
    (set_timers (S (timers st)) (set_messageBox box st)).

Definition hideMessage (st : State) : State :=
  let box := messageBox st in
  set_timers (pred (timers st))
    (set_messageBox
       {| mb_textContent := mb_textContent box;
          mb_backgroundColor := mb_backgroundColor box;
          mb_color := mb_color box;
          mb_border := mb_border box;
          mb_display := js "none" |} st).

(** [createTaskElement(task)] *)
Definition createTaskElement (task : Task) : TaskElement :=
  {| li_data_doc_id := id task;
     li_textContent := text task;
     li_removeButton :=
       {| btn_textContent := js "Remove";
          btn_className := js "remove-btn";
          btn_onclick := task |} |}.

(** [!db || !userId]: [db] is undefined or an object, [userId] is null or
    a string, and the empty string is falsy. *)
Definition notReady (st : State) : bool :=
  negb (match db st with Some _ => true | None => false end)
  || negb (match userId st with Some u => JsString.truthy u | None => false end).

Section Script.

(** [appId] and [authToken], read once from the environment. *)
Variable appId : JsString.t.
Variable authToken : option JsString.t.

(** [`artifacts/${appId}/users/${userId}/tasks`] *)
Definition tasksPath (st : State) : JsString.t :=
  js "artifacts/" ++ appId ++ js "/users/"
    ++ (match userId st with Some u => u | None => js "null" end)
    ++ js "/tasks".

(** The click handler of a remove button, up to [await deleteDoc]. *)
Definition removeButton_onclick (task : Task) (st : State) : Step :=
  if notReady st then
    Finished (showMessage (js "Database is not ready. Please wait.") true st)
  else
    Awaiting
      (set_firestore (firestore st ++ [DeleteDoc (tasksPath st) (id task)]) st).

(** The click handler after the [await]: nothing more on success, the
    [catch] block on rejection. *)
Definition removeButton_onclick_settled (r : Settled) (st : State) : State :=
  match r with
  | Fulfilled => st
  | Rejected e =>
      showMessage (js "Failed to remove task. Check console for details.") true
        (console_error (js "Error removing document: ") e st)
  end.

(** [addTask()] up to [await addDoc]; [now] is what [Date.now()]
    returns. *)
Definition addTask (now : Z) (st : State) : Step :=
  let taskText := JsString.trim (taskInput_value st) in
  if JsString.eqb taskText (js "") then
    Finished (showMessage (js "Please enter a task.") true st)
  else if notReady st then
    Finished (showMessage (js "Database is not ready. Please wait.") true st)
  else
    Awaiting
      (set_firestore (firestore st ++ [AddDoc (tasksPath st) taskText now]) st).

(** [addTask()] after the [await]. *)
Definition addTask_settled (r : Settled) (st : State) : State :=
  match r with
  | Fulfilled => set_taskInput_value (js "") st
  | Rejected e =>
      showMessage (js "Failed to add task. Check console for details.") true
        (console_error (js "Error adding document: ") e st)
  end.

(** The success callback handed to [onSnapshot]; [snapshot] lists the
    documents in the order [snapshot.forEach] visits them. *)
Definition onSnapshot_next (snapshot : list QueryDocumentSnapshot) (st : State)
  : State :=
  let st1 := set_taskList [] st in
  let tasks :=
    fold_left (fun tasks doc => tasks ++ [task_of_doc doc]) snapshot [] in
  let tasks := Array_sort byCreatedAt tasks in
  let st2 :=
    fold_left
      (fun s task => set_taskList (taskList s ++ [createTaskElement task]) s)
      tasks st1 in
  showMessage
    (js "Loaded " ++ JsString.of_nat (List.length tasks)
       ++ js " tasks from the database.") false st2.

(** The error callback handed to [onSnapshot]. *)
Definition onSnapshot_error (error : JsError) (st : State) : State :=
  showMessage (js "Failed to load tasks in real-time.") true
    (console_error (js "Firestore real-time error:") error st).

(** [setupRealtimeListener()] *)
Definition setupRealtimeListener (st : State) : State :=
  if notReady st then
    console_warn
      (js "Real-time listener skipped: DB or User ID not available.") st
  else
    set_firestore (firestore st ++ [OnSnapshot (tasksPath st)]) st.

(** The callback handed to [onAuthStateChanged], up to its [await]. *)
Definition onAuthStateChanged_callback (user : option User) (st : State) : Step :=
  match user with
  | Some u =>
      let st1 := set_userId (Some (uid u)) st in
      let st2 :=
        set_userIdDisplay
          (js "User ID: <strong>"
             ++ (match userId st1 with Some v => v | None => js "null" end)
             ++ js "</strong>") st1 in
      let st3 := set_isAuthReady true st2 in
      Finished (setupRealtimeListener st3)
  | None =>
      let request :=
        match authToken with
        | Some token =>
            if JsString.truthy token then SignInWithCustomToken token
            else SignInAnonymously
        | None => SignInAnonymously
        end in
      Awaiting (set_authentication (authentication st ++ [request]) st)
  end.

(** The callback after the [await] of the sign-in. *)
Definition onAuthStateChanged_settled (r : Settled) (st : State) : State :=
  match r with
  | Fulfilled => st
  | Rejected error =>
      showMessage (js "Authentication failed. Cannot load tasks.") true
        (set_userIdDisplay (js "Status: Authentication Failed!")
           (console_error (js "Firebase Auth Error:") error st))
  end.

End Script.

(* ===================================================================== *)
(** ** The page as an event-driven system *)
(* ===================================================================== *)

(** The state [initializeAppAndAuth] and the DOMContentLoaded handler leave
    behind when nothing throws: [db] holds the Firestore handle, nobody is
    signed in, the list is empty and the message box is hidden. *)
Definition initialState (input : JsString.t) : State :=
  {| db := Some FirestoreHandle;
     userId := None;
     isAuthReady := false;
     taskInput_value := input;
     taskList := [];
     messageBox :=
       {| mb_textContent := js ""; mb_backgroundColor := js "";
          mb_color := js ""; mb_border := js ""; mb_display := js "none" |};
     userIdDisplay := js "Status: Initializing...";
     timers := 0;
     console := [];
     firestore := [];
     authentication := [];
     shown := [] |}.

(** The three places where the script awaits a promise. *)
Inductive Continuation :=
| AfterAddDoc
| AfterDeleteDoc
| AfterSignIn.

Definition Continuation_eqb (a b : Continuation) : bool :=
  match a, b with
  | AfterAddDoc, AfterAddDoc
  | AfterDeleteDoc, AfterDeleteDoc
  | AfterSignIn, AfterSignIn => true
  | _, _ => false
  end.

(** What the browser, the user and Firebase can do to the page. *)
Inductive Event :=
| UserTypes (value : JsString.t)
| AddTaskCalled (now : Z)
| RemoveClicked (index : nat)
| PromiseSettled (k : Continuation) (r : Settled)
| AuthStateChanged (user : option User)
| SnapshotDelivered (snapshot : list QueryDocumentSnapshot)
| SnapshotFailed (error : JsError)
| TimerFired.

(** The page between two events: the state and the parked async
    functions. *)
Definition Page : Type := State * list Continuation.

Definition park (k : Continuation) (s : Step) (ks : list Continuation) : Page :=
  match s with
  | Finished st => (st, ks)
  | Awaiting st => (st, ks ++ [k])
  end.

Fixpoint unpark (k : Continuation) (ks : list Continuation)
  : option (list Continuation) :=
  match ks with
  | [] => None
  | k' :: r =>
      if Continuation_eqb k k' then Some r
      else option_map (cons k') (unpark k r)
  end.

Definition isOnSnapshot (r : StoreRequest) : bool :=
  match r with OnSnapshot _ => true | _ => false end.

(** A listener has been registered with [onSnapshot]. *)
Definition subscribed (st : State) : bool := existsb isOnSnapshot (firestore st).

Section System.

Variable appId : JsString.t.
Variable authToken : option JsString.t.

Definition resumeWith (k : Continuation) : Settled -> State -> State :=
  match k with
  | AfterAddDoc => addTask_settled
  | AfterDeleteDoc => removeButton_onclick_settled
  | AfterSignIn => onAuthStateChanged_settled
  end.

(** One event; [None] when the event cannot happen in this page: a
    click on a button that is not there, a promise nobody awaits, a
    snapshot without a listener, a timer that was never set.  Firebase
    Auth hands out non-empty user ids. *)
Definition handle (e : Event) (p : Page) : option Page :=
  let (st, ks) := p in
  match e with
  | UserTypes value => Some (set_taskInput_value value st, ks)
  | AddTaskCalled now => Some (park AfterAddDoc (addTask appId now st) ks)
  | RemoveClicked index =>
      match nth_error (taskList st) index with
      | Some li =>
          Some (park AfterDeleteDoc
                  (removeButton_onclick appId
                     (btn_onclick (li_removeButton li)) st) ks)
      | None => None
      end
  | PromiseSettled k r =>
      match unpark k ks with
      | Some ks' => Some (resumeWith k r st, ks')
      | None => None
      end
  | AuthStateChanged user =>
      if match user with Some u => JsString.truthy (uid u) | None => true end
      then Some (park AfterSignIn
                   (onAuthStateChanged_callback appId authToken user st) ks)
      else None
  | SnapshotDelivered snapshot =>
      if subscribed st then Some (onSnapshot_next snapshot st, ks) else None
  | SnapshotFailed error =>
      if subscribed st then Some (onSnapshot_error error st, ks) else None
  | TimerFired =>
      match timers st with
      | O => None
      | S _ => Some (hideMessage st, ks)
      end
  end.

Fixpoint run (es : list Event) (p : Page) : option Page :=
  match es with
  | [] => Some p
  | e :: es' =>
      match handle e p with
      | Some p' => run es' p'
      | None => None
      end
  end.

(** The pages the script can be in. *)
Definition reachable (p : Page) : Prop :=
  exists input es, run es (initialState input, []) = Some p.

End System.

(* ===================================================================== *)
(** ** Reading the behaviour in the words of the specification *)
(* ===================================================================== *)

(** The error kinds of the specification.  The script reports an error to
    its caller by showing a message; the kind is read off the text. *)
Inductive ControllerError :=
| ValidationError
| StoreUnavailable
| OperationFailed.

Definition classify (m : JsString.t * bool) : list ControllerError :=
  let (msg, isError) := m in
  if negb isError then []
  else if JsString.eqb msg (js "Please enter a task.") then [ValidationError]
  else if JsString.eqb msg (js "Database is not ready. Please wait.")
  then [StoreUnavailable]
  else if JsString.eqb msg (js "Failed to add task. Check console for details.")
          || JsString.eqb msg
               (js "Failed to remove task. Check console for details.")
  then [OperationFailed]
  else [].

(** The Firestore calls made on the way from [st] to [st']. *)
Definition issued (st st' : State) : list StoreRequest :=
  skipn (List.length (firestore st)) (firestore st').

(** The errors reported to the caller on the way from [st] to [st']. *)
Definition errors (st st' : State) : list ControllerError :=
  flat_map classify (skipn (List.length (shown st)) (shown st')).

(** The view of the specification is the content of the task list. *)
Definition view (st : State) : list TaskElement := taskList st.

(** The controller states of the specification.  The script keeps no such
    variable; the state is read off what the page last heard from the
    store: nothing yet ([Uninitialized], or [Connecting] once a listener is
    registered), a snapshot, announced by the message of the success
    callback ([Ready]), or an error, announced by one of the four store
    error messages ([Error]). *)
Module Controller.








End Controller.

(** What a snapshot is rendered to. *)
Definition render (snapshot : list QueryDocumentSnapshot) : list TaskElement :=
  map createTaskElement (Array_sort byCreatedAt (map task_of_doc snapshot)).

(** The tasks handed to [addDoc], as (text, createdAt), in call order. *)
Definition created (requests : list StoreRequest) : list (JsString.t * Z) :=
  flat_map
    (fun r => match r with AddDoc _ t c => [(t, c)] | _ => [] end) requests.

(** [addTask] evaluates [Date.now()] (line 105) on one path only: the one
    that passes the two checks, goes on to [addDoc] and parks at the
    [await].  A call that returns at a check takes no reading. *)
Definition readsClock (appId : JsString.t) (now : Z) (st : State) : bool :=
  match addTask appId now st with
  | Awaiting _ => true
  | Finished _ => false
  end.

(** The readings of [Date.now()] taken along a run from page [p], in the
    order in which they are taken. *)
Fixpoint clockReadings (appId : JsString.t) (authToken : option JsString.t)
         (es : list Event) (p : Page) : list Z :=
  match es with
  | [] => []
  | e :: es' =>
      match handle appId authToken e p with
      | Some p1 =>
          (match e with
           | AddTaskCalled now =>
               if readsClock appId now (fst p) then [now] else []
           | _ => []
           end) ++ clockReadings appId authToken es' p1
      | None => []
      end
  end.

(** What the store answers to a create or remove request, in the words of
    the specification: [StoreUnavailable] while the page is not connected
    and authenticated, [OperationFailed] when the request is rejected. *)
Definition storeOutcome (st : State) (r : Settled) : option ControllerError :=
  if notReady st then Some StoreUnavailable
  else match r with
       | Rejected _ => Some OperationFailed
       | Fulfilled => None
       end.

(** The state the page keeps for itself: the module variables, the input
    field and the task list. *)
Definition localState (st : State)
  : option Firestore * option JsString.t * bool * JsString.t * list TaskElement :=
  (db st, userId st, isAuthReady st, taskInput_value st, taskList st).

(** What holds of every page the script can be in: the database handle is
    set, a user id is never the empty string, a listener is registered only
    for a signed-in user, list items exist only once a listener is
    registered, and every list item is one [createTaskElement] built. *)
Definition wellFormed (st : State) : Prop :=
  db st <> None
  /\ (forall u, userId st = Some u -> JsString.truthy u = true)
  /\ (subscribed st = true -> userId st <> None)
  /\ (taskList st <> [] -> subscribed st = true)
  /\ Forall (fun li => li = createTaskElement (btn_onclick (li_removeButton li)))
       (taskList st).

(* ===================================================================== *)
(** ** Example pages *)
(* ===================================================================== *)

(** The fallback the script uses when the environment gives no app id. *)
Definition defaultAppId : JsString.t := js "default-app-id".

Definition alice : User := {| uid := js "alice" |}.

Definition milk : QueryDocumentSnapshot :=
  {| doc_id := js "d1";
     doc_data := {| data_text := js "Buy milk"; data_createdAt := 1000 |} |}.

(** The page after the events [es], starting from a fresh page with an
    empty input field and no custom token. *)
Definition pageAfter (es : list Event) : Page :=
  match run defaultAppId None es (initialState (js ""), []) with
  | Some p => p
  | None => (initialState (js ""), [])
  end.

(** Alice is signed in and has typed a task. *)
Definition signedIn : State :=
  fst (pageAfter [AuthStateChanged (Some alice); UserTypes (js "  Buy milk ")]).

(** Alice is signed in and the list shows one task. *)
Definition showingMilk : Page :=
  pageAfter [AuthStateChanged (Some alice); SnapshotDelivered [milk]].

(** Two tasks added one after the other, the clock reading 3 and then 5. *)
Definition twoTasks : list Event :=
  [AuthStateChanged (Some alice);
   UserTypes (js "a"); AddTaskCalled 3; PromiseSettled AfterAddDoc Fulfilled;
   UserTypes (js "b"); AddTaskCalled 5].

(** A call on an empty field while the clock reads 9, then two tasks, the
    clock reading 3 and then 5. *)
Definition twoTasksAfterBlankCall : list Event :=
  [AuthStateChanged (Some alice); AddTaskCalled 9;
   UserTypes (js "a"); AddTaskCalled 3; PromiseSettled AfterAddDoc Fulfilled;
   UserTypes (js "b"); AddTaskCalled 5].

(** The same, the clock set back in between: it reads 5 and then 3. *)
Definition twoTasksClockSetBack : list Event :=
  [AuthStateChanged (Some alice);
   UserTypes (js "a"); AddTaskCalled 5; PromiseSettled AfterAddDoc Fulfilled;
   UserTypes (js "b"); AddTaskCalled 3].

(* ===================================================================== *)
(** ** What one event does to the page, field by field *)
(* ===================================================================== *)

(** [`artifacts/${appId}/users/${userId}/tasks`] for a given user id. *)
Definition userTasksPath (appId u : JsString.t) : JsString.t :=
  js "artifacts/" ++ appId ++ js "/users/" ++ u ++ js "/tasks".

Definition requestPath (r : StoreRequest) : JsString.t :=
  match r with
  | AddDoc path _ _ | DeleteDoc path _ | OnSnapshot path => path
  end.

(** The sign-in the script asks for when nobody is signed in. *)
Definition signInRequest (authToken : option JsString.t) : AuthRequest :=
  match authToken with
  | Some token =>
      if JsString.truthy token then SignInWithCustomToken token
      else SignInAnonymously
  | None => SignInAnonymously
  end.

(** The Firestore calls an event leads to in state [st]. *)
Definition requestsOf (appId : JsString.t) (e : Event) (st : State)
  : list StoreRequest :=
  match e with
  | AddTaskCalled now =>
      match JsString.trim (taskInput_value st) with
      | [] => []
      | _ :: _ =>
          if notReady st then []
          else [AddDoc (tasksPath appId st)
                  (JsString.trim (taskInput_value st)) now]
      end
  | RemoveClicked index =>
      match nth_error (taskList st) index with
      | Some li =>
          if notReady st then []
          else [DeleteDoc (tasksPath appId st)
                  (id (btn_onclick (li_removeButton li)))]
      | None => []
      end
  | AuthStateChanged (Some u) =>
      match db st with
      | Some _ =>
          if JsString.truthy (uid u)
          then [OnSnapshot (userTasksPath appId (uid u))] else []
      | None => []
      end
  | _ => []
  end.

(** The user id after an event. *)
Definition userOf (e : Event) (u0 : option JsString.t) : option JsString.t :=
  match e with
  | AuthStateChanged (Some u) => Some (uid u)
  | _ => u0
  end.

(** The task list after an event. *)
Definition viewOf (e : Event) (v0 : list TaskElement) : list TaskElement :=
  match e with
  | SnapshotDelivered snapshot => render snapshot
  | _ => v0
  end.

Definition userAfter (es : list Event) (u0 : option JsString.t)
  : option JsString.t :=
  fold_left (fun u e => userOf e u) es u0.

Definition viewAfter (es : list Event) (v0 : list TaskElement)
  : list TaskElement :=
  fold_left (fun v e => viewOf e v) es v0.

Definition isSignIn (e : Event) : bool :=
  match e with AuthStateChanged (Some _) => true | _ => false end.

Definition isSignOut (e : Event) : bool :=
  match e with AuthStateChanged None => true | _ => false end.

Definition isTimerFired (e : Event) : bool :=
  match e with TimerFired => true | _ => false end.

(** The messages shown on the way from [st] to [st']. *)
Definition shownSince (st st' : State) : list (JsString.t * bool) :=
  skipn (List.length (shown st)) (shown st').

(** A text that is not empty and neither begins nor ends with white
    space. *)
Definition trimmedText (t : JsString.t) : Prop :=
  t <> []
  /\ (forall c r, t = c :: r -> JsString.isWhiteSpace c = false)
  /\ (forall r c, t = r ++ [c] -> JsString.isWhiteSpace c = false).

(** The request is addressed to the task collection of the user whose id
    [userId] holds in [st], and that id is a non-empty string. *)
Definition wellAddressed (appId : JsString.t) (st : State) (r : StoreRequest)
  : Prop :=
  exists u,
    userId st = Some u
    /\ JsString.truthy u = true
    /\ requestPath r = userTasksPath appId u.


(* ===================================================================== *)
(** ** Start-up: initializeAppAndAuth *)
(* ===================================================================== *)

(** [initializeAppAndAuth] runs while [messageBox] is still unbound, so it
    gets a state of its own in which the handles are optional.  The
    environment decides which SDK call throws and whether the page has the
    elements the function looks up. *)
Module Boot.

Record Environment := {
  initializeApp_throws : option JsError;
  getFirestore_throws : option JsError;
  getAuth_throws : option JsError;
  (* document.getElementById('todo-app') is an element *)
  has_todo_app : bool;
  (* todoApp.querySelector('h1') is an element *)
  has_h1 : bool
}.

Record Early := {
  early_db : option Firestore;
  early_auth : bool;
  early_messageBox : option MessageBox;
  early_userIdDisplay : option JsString.t;
  (* h1.after(userIdDisplay, messageBox) has run *)
  early_inserted : bool;
  (* onAuthStateChanged(auth, ...) has run *)
  early_authListener : bool;
  early_timers : nat;
  early_console : list ConsoleEntry;
  early_shown : list (JsString.t * bool)
}.

(** The module variables as declared: nothing is bound yet. *)
Definition start : Early :=
  {| early_db := None; early_auth := false; early_messageBox := None;
     early_userIdDisplay := None; early_inserted := false;
     early_authListener := false; early_timers := 0; early_console := [];
     early_shown := [] |}.

(** What reading a property of [null] or [undefined] throws. *)
Definition TypeError : JsError := MkJsError (js "TypeError").

(** The [try] block: the state reached and what was thrown, if
    anything. *)
Definition tryBlock (env : Environment) (s : Early) : Early * option JsError :=
  match initializeApp_throws env with
  | Some e => (s, Some e)
  | None =>
  match getFirestore_throws env with
  | Some e => (s, Some e)
  | None =>
  let s1 :=
    {| early_db := Some FirestoreHandle; early_auth := early_auth s;
       early_messageBox := early_messageBox s;
       early_userIdDisplay := early_userIdDisplay s;
       early_inserted := early_inserted s;
       early_authListener := early_authListener s;
       early_timers := early_timers s; early_console := early_console s;
       early_shown := early_shown s |} in
  match getAuth_throws env with
  | Some e => (s1, Some e)
  | None =>
  let s2 :=
    {| early_db := early_db s1; early_auth := true;
       early_messageBox :=
         Some {| mb_textContent := js ""; mb_backgroundColor := js "";
                 mb_color := js ""; mb_border := js "";
                 mb_display := js "none" |};
       early_userIdDisplay := Some (js "Status: Initializing...");
       early_inserted := early_inserted s1;
       early_authListener := early_authListener s1;
       early_timers := early_timers s1; early_console := early_console s1;
       early_shown := early_shown s1 |} in
  if negb (has_todo_app env) then (s2, Some TypeError)
  else if negb (has_h1 env) then (s2, Some TypeError)
  else
    ({| early_db := early_db s2; early_auth := early_auth s2;
        early_messageBox := early_messageBox s2;
        early_userIdDisplay := early_userIdDisplay s2;
        early_inserted := true;
        early_authListener := true;
        early_timers := early_timers s2; early_console := early_console s2;
        early_shown := early_shown s2 |}, None)
  end end end.

(** [showMessage] when [messageBox] may be unbound: the first statement,
    [messageBox.textContent = text], throws on [undefined]. *)
Definition showMessage (text : JsString.t) (isError : bool) (s : Early)
  : Early * option JsError :=
  match early_messageBox s with
  | None => (s, Some TypeError)
  | Some _ =>
      let box :=
        if isError then
          {| mb_textContent := text;
             mb_backgroundColor := js "#f8d7da";
             mb_color := js "#721c24";
             mb_border := js "1px solid #f5c6cb";
             mb_display := js "block" |}
        else
          {| mb_textContent := text;
             mb_backgroundColor := js "#d4edda";
             mb_color := js "#155724";
             mb_border := js "1px solid #c3e6cb";
             mb_display := js "block" |} in
      ({| early_db := early_db s; early_auth := early_auth s;
          early_messageBox := Some box;
          early_userIdDisplay := early_userIdDisplay s;
          early_inserted := early_inserted s;
          early_authListener := early_authListener s;
          early_timers := S (early_timers s);
          early_console := early_console s;
          early_shown := early_shown s ++ [(text, isError)] |}, None)
  end.

(** The [catch] block. *)
Definition catchBlock (e : JsError) (s : Early) : Early * option JsError :=
  showMessage (js "Application failed to initialize. Check console.") true
    {| early_db := early_db s; early_auth := early_auth s;
       early_messageBox := early_messageBox s;
       early_userIdDisplay := early_userIdDisplay s;
       early_inserted := early_inserted s;
       early_authListener := early_authListener s;
       early_timers := early_timers s;
       early_console :=
         early_console s
           ++ [ConsoleError (js "Firebase Initialization Error:") e];
       early_shown := early_shown s |}.

(** [initializeAppAndAuth()]: the state it leaves and how its promise
    settles. *)
Definition initializeAppAndAuth (env : Environment) : Early * Settled :=
  match tryBlock env start with
  | (s, None) => (s, Fulfilled)
  | (s, Some e) =>
      match catchBlock e s with
      | (s', None) => (s', Fulfilled)
      | (s', Some e') => (s', Rejected e')
      end
  end.

(** The state of the page, once every handle is bound; [input] is the
    content of the input field. *)
Definition toState (input : JsString.t) (s : Early) : option State :=
  match early_messageBox s, early_userIdDisplay s with
  | Some box, Some display =>
      Some {| db := early_db s; userId := None; isAuthReady := false;
              taskInput_value := input; taskList := [];
              messageBox := box; userIdDisplay := display;
              timers := early_timers s; console := early_console s;
              firestore := []; authentication := [];
              shown := early_shown s |}
  | _, _ => None
  end.

(** Nothing throws and the page has its heading. *)
Definition healthy (env : Environment) : bool :=
  match initializeApp_throws env, getFirestore_throws env, getAuth_throws env with
  | None, None, None => has_todo_app env && has_h1 env
  | _, _, _ => false
  end.

(** One of the three SDK calls throws. *)
Definition sdkThrows (env : Environment) : option JsError :=
  match initializeApp_throws env with
  | Some e => Some e
  | None =>
      match getFirestore_throws env with
      | Some e => Some e
      | None => getAuth_throws env
      end
  end.

End Boot.

(* ===================================================================== *)
(** ** Facts about strings *)
(* ===================================================================== *)

Lemma JsString_eqb_refl (a : JsString.t) : JsString.eqb a a = true.
Proof.
  induction a as [|x a IH]; simpl; [reflexivity|].
  now rewrite N.eqb_refl, IH.
Qed.

Lemma JsString_eqb_eq (a b : JsString.t) : JsString.eqb a b = true <-> a = b.
Proof.
  revert b; induction a as [|x a IH]; intros [|y b]; simpl;
    try (split; [discriminate | congruence]); try tauto.
  rewrite andb_true_iff, N.eqb_eq, IH.
  split; [intros [-> ->]; reflexivity | intros H; inversion H; auto].
Qed.

Lemma JsString_eqb_empty (a : JsString.t) :
  JsString.eqb a (js "") = match a with [] => true | _ :: _ => false end.
Proof. destruct a; reflexivity. Qed.

Lemma trimStart_all_ws (s : JsString.t) :
  forallb JsString.isWhiteSpace s = true -> JsString.trimStart s = [].
Proof.
  induction s as [|c r IH]; simpl; [reflexivity|].
  destruct (JsString.isWhiteSpace c); simpl; [exact IH | discriminate].
Qed.

Lemma trimStart_nil_inv (s : JsString.t) :
  JsString.trimStart s = [] -> forallb JsString.isWhiteSpace s = true.
Proof.
  induction s as [|c r IH]; simpl; [reflexivity|].
  destruct (JsString.isWhiteSpace c); simpl; [exact IH | discriminate].
Qed.

Lemma trimStart_head (s : JsString.t) (c : N) (r : JsString.t) :
  JsString.trimStart s = c :: r -> JsString.isWhiteSpace c = false.
Proof.
  induction s as [|d l IH]; simpl; [discriminate|].
  destruct (JsString.isWhiteSpace d) eqn:Ed; [exact IH|].
  intros E. injection E as -> _. exact Ed.
Qed.

(** The trimmed text is empty exactly when every code unit of the text is
    white space. *)
Lemma trim_nil_iff (s : JsString.t) :
  JsString.trim s = [] <-> forallb JsString.isWhiteSpace s = true.
Proof.
  unfold JsString.trim, JsString.trimEnd. split.
  - intros H.
    assert (Hr : JsString.trimStart (rev (JsString.trimStart s)) = []).
    { destruct (JsString.trimStart (rev (JsString.trimStart s))) as [|x l] eqn:E;
        [reflexivity|].
      simpl in H. destruct (rev l); discriminate. }
    destruct (JsString.trimStart s) as [|c r] eqn:E.
    + now apply trimStart_nil_inv.
    + exfalso.
      pose proof (trimStart_head _ _ _ E) as Hc.
      apply trimStart_nil_inv in Hr.
      rewrite forallb_forall in Hr.
      assert (Hin : In c (rev (c :: r))).
      { rewrite <- in_rev. now left. }
      specialize (Hr c Hin). congruence.
  - intros H. rewrite (trimStart_all_ws s H). reflexivity.
Qed.

(* ===================================================================== *)
(** ** Facts about the sort *)
(* ===================================================================== *)

Lemma insert_Permutation (x : Task) (l : list Task) :
  Permutation (insert byCreatedAt x l) (x :: l).
Proof.
  induction l as [|y r IH]; simpl; [apply Permutation_refl|].
  destruct (0 <? byCreatedAt x y)%Z.
  - eapply perm_trans; [apply perm_skip, IH | apply perm_swap].
  - apply Permutation_refl.
Qed.

Lemma Array_sort_Permutation (l : list Task) :
  Permutation (Array_sort byCreatedAt l) l.
Proof.
  induction l as [|x l IH]; simpl; [constructor|].
  eapply perm_trans; [apply insert_Permutation | now apply perm_skip].
Qed.

Lemma insert_ascending (x : Task) (l : list Task) :
  ascending l -> ascending (insert byCreatedAt x l).
Proof.
  unfold ascending, byCreatedAt.
  induction l as [|y r IH]; simpl; intros H.
  - repeat constructor.
  - apply StronglySorted_inv in H as [Hr Hy].
    destruct (0 <? createdAt x - createdAt y)%Z eqn:E.
    + apply Z.ltb_lt in E.
      constructor; [now apply IH|].
      eapply Permutation_Forall;
        [apply Permutation_sym, insert_Permutation|].
      constructor; [lia | exact Hy].
    + apply Z.ltb_ge in E.
      constructor; [now constructor|].
      constructor; [lia|].
      eapply Forall_impl; [|exact Hy]. simpl; intros; lia.
Qed.

Lemma Array_sort_ascending (l : list Task) :
  ascending (Array_sort byCreatedAt l).
Proof.
  induction l as [|x l IH]; simpl; [constructor|].
  now apply insert_ascending.
Qed.

Lemma insert_createdAtIs (k : Z) (x : Task) (l : list Task) :
  createdAtIs k (insert byCreatedAt x l) = createdAtIs k (x :: l).
Proof.
  unfold createdAtIs, byCreatedAt.
  induction l as [|y r IH]; simpl; [reflexivity|].
  destruct (0 <? createdAt x - createdAt y)%Z eqn:E; [|reflexivity].
  apply Z.ltb_lt in E. simpl. rewrite IH. simpl.
  destruct (createdAt x =? k)%Z eqn:Ex, (createdAt y =? k)%Z eqn:Ey;
    try reflexivity.
  apply Z.eqb_eq in Ex, Ey. lia.
Qed.

(** The sort is stable: tasks with the same [createdAt] keep their
    order. *)
Lemma Array_sort_stable (k : Z) (l : list Task) :
  createdAtIs k (Array_sort byCreatedAt l) = createdAtIs k l.
Proof.
  induction l as [|x l IH]; simpl; [reflexivity|].
  rewrite insert_createdAtIs. unfold createdAtIs in *. simpl.
  now rewrite IH.
Qed.

Lemma ascending_createdAtIs_eq (l1 l2 : list Task) :
  ascending l1 -> ascending l2 ->
  (forall k, createdAtIs k l1 = createdAtIs k l2) ->
  l1 = l2.
Proof.
  unfold ascending, createdAtIs.
  revert l2; induction l1 as [|a l1 IH]; intros l2 H1 H2 Hk.
  - destruct l2 as [|b l2]; [reflexivity|].
    specialize (Hk (createdAt b)). simpl in Hk.
    rewrite Z.eqb_refl in Hk. discriminate.
  - destruct l2 as [|b l2].
    + specialize (Hk (createdAt a)). simpl in Hk.
      rewrite Z.eqb_refl in Hk. discriminate.
    + apply StronglySorted_inv in H1 as [H1 Ha].
      apply StronglySorted_inv in H2 as [H2 Hb].
      assert (Hnone : forall (c : Task) (l : list Task) (k : Z),
                 Forall (fun t => (createdAt c <= createdAt t)%Z) l ->
                 (k < createdAt c)%Z ->
                 filter (fun t => (createdAt t =? k)%Z) l = []).
      { intros c l k Hc Hlt. induction Hc as [|t l Ht _ IHl]; simpl;
          [reflexivity|].
        destruct (createdAt t =? k)%Z eqn:Et; [|exact IHl].
        apply Z.eqb_eq in Et. lia. }
      assert (Hab : createdAt a = createdAt b).
      { destruct (Z.lt_total (createdAt a) (createdAt b)) as [Hlt|[Heq|Hgt]];
          [exfalso|exact Heq|exfalso].
        - specialize (Hk (createdAt a)). simpl in Hk.
          rewrite Z.eqb_refl in Hk.
          assert (E : (createdAt b =? createdAt a)%Z = false)
            by (apply Z.eqb_neq; lia).
          rewrite E, (Hnone b l2 _ Hb Hlt) in Hk. discriminate.
        - specialize (Hk (createdAt b)). simpl in Hk.
          rewrite Z.eqb_refl in Hk.
          assert (E : (createdAt a =? createdAt b)%Z = false)
            by (apply Z.eqb_neq; lia).
          rewrite E, (Hnone a l1 _ Ha Hgt) in Hk. discriminate. }
      assert (Heq : a = b).
      { specialize (Hk (createdAt a)). simpl in Hk.
        rewrite <- Hab, Z.eqb_refl in Hk. now injection Hk. }
      subst b. f_equal. apply IH; try assumption.
      intros k. specialize (Hk k). simpl in Hk.
      destruct (createdAt a =? k)%Z; [now injection Hk | exact Hk].
Qed.

(** Whatever stable sorting algorithm the engine runs, the outcome is the
    one of [Array_sort]. *)
Lemma stable_sort_unique (l sorted : list Task) :
  ascending sorted ->
  (forall k, createdAtIs k sorted = createdAtIs k l) ->
  sorted = Array_sort byCreatedAt l.
Proof.
  intros Hs Hk. apply ascending_createdAtIs_eq.
  - exact Hs.
  - apply Array_sort_ascending.
  - intros k. now rewrite Array_sort_stable.
Qed.

(* ===================================================================== *)
(** ** Facts about the traces *)
(* ===================================================================== *)

Lemma skipn_length_app (A : Type) (l l' : list A) :
  skipn (List.length l) (l ++ l') = l'.
Proof. induction l as [|x l IH]; simpl; [reflexivity | exact IH]. Qed.

Lemma skipn_length (A : Type) (l : list A) : skipn (List.length l) l = [].
Proof. induction l as [|x l IH]; simpl; [reflexivity | exact IH]. Qed.

Lemma issued_refl (st : State) : issued st st = [].
Proof. apply skipn_length. Qed.

Lemma errors_refl (st : State) : errors st st = [].
Proof. unfold errors. now rewrite skipn_length. Qed.

Lemma issued_app (st st' : State) (l : list StoreRequest) :
  firestore st' = firestore st ++ l -> issued st st' = l.
Proof. unfold issued. intros ->. apply skipn_length_app. Qed.

Lemma errors_app (st st' : State) (l : list (JsString.t * bool)) :
  shown st' = shown st ++ l -> errors st st' = flat_map classify l.
Proof. unfold errors. intros ->. now rewrite skipn_length_app. Qed.

(** Unfolds the observations of a state built by the script and reduces
    the traces to what was appended. *)
Ltac observe :=
  unfold issued, errors, view, localState, showMessage, console_error,
    console_warn in *;
  simpl;
  rewrite ?skipn_length_app, ?skipn_length.

(* ===================================================================== *)
(** ** Facts about the snapshot callbacks *)
(* ===================================================================== *)

Lemma forEach_push (snapshot : list QueryDocumentSnapshot) (acc : list Task) :
  fold_left (fun tasks doc => tasks ++ [task_of_doc doc]) snapshot acc
  = acc ++ map task_of_doc snapshot.
Proof.
  revert acc; induction snapshot as [|d l IH]; intros acc; simpl.
  - now rewrite app_nil_r.
  - rewrite IH, <- app_assoc. reflexivity.
Qed.

Lemma forEach_appendChild (tasks : list Task) (l0 : list TaskElement) (st : State) :
  fold_left
    (fun s task => set_taskList (taskList s ++ [createTaskElement task]) s)
    tasks (set_taskList l0 st)
  = set_taskList (l0 ++ map createTaskElement tasks) st.
Proof.
  revert l0; induction tasks as [|t l IH]; intros l0; simpl.
  - now rewrite app_nil_r.
  - change (set_taskList ((l0 ++ [createTaskElement t])) (set_taskList l0 st))
      with (set_taskList (l0 ++ [createTaskElement t]) st).
    rewrite IH, <- app_assoc. reflexivity.
Qed.

(** The success callback, in one step: the list is set to the rendering of
    the snapshot and the number of tasks is announced. *)
Lemma onSnapshot_next_eq (snapshot : list QueryDocumentSnapshot) (st : State) :
  onSnapshot_next snapshot st
  = showMessage
      (js "Loaded " ++ JsString.of_nat (List.length (render snapshot))
         ++ js " tasks from the database.") false
      (set_taskList (render snapshot) st).
Proof.
  unfold onSnapshot_next, render.
  rewrite forEach_push, forEach_appendChild. simpl.
  now rewrite length_map.
Qed.

Lemma onSnapshot_next_view (snapshot : list QueryDocumentSnapshot) (st : State) :
  view (onSnapshot_next snapshot st) = render snapshot.
Proof. rewrite onSnapshot_next_eq. reflexivity. Qed.








(* ===================================================================== *)
(** ** The snapshot callback and the view *)
(* ===================================================================== *)

(** C1.  The success callback of the snapshot listener replaces the task
    list by the tasks of the snapshot, one list item per task, in ascending
    order of [createdAt] (tasks with equal [createdAt] keep the order of
    the snapshot); nothing of the former list is kept.  A snapshot with
    [createdAt] 5, 1, 3 is shown in the order 1, 3, 5, and after the
    snapshots [A; B] and [A] the list holds the item of [A] alone. *)
Theorem onSnapshot_next_replaces_view :
  (forall (snapshot : list QueryDocumentSnapshot) (st : State),
      let tasks := Array_sort byCreatedAt (map task_of_doc snapshot) in
      view (onSnapshot_next snapshot st) = map createTaskElement tasks
      /\ Permutation tasks (map task_of_doc snapshot)
      /\ ascending tasks
      /\ (forall k, createdAtIs k tasks = createdAtIs k (map task_of_doc snapshot)))
  /\ (forall (st : State) (i5 t5 i1 t1 i3 t3 : JsString.t),
         let doc i t c :=
           {| doc_id := i; doc_data := {| data_text := t; data_createdAt := c |} |} in
         view (onSnapshot_next [doc i5 t5 5%Z; doc i1 t1 1%Z; doc i3 t3 3%Z] st)
         = [createTaskElement {| id := i1; text := t1; createdAt := 1 |};
            createTaskElement {| id := i3; text := t3; createdAt := 3 |};
            createTaskElement {| id := i5; text := t5; createdAt := 5 |}])
  /\ (forall (st : State) (A B : QueryDocumentSnapshot),
         view (onSnapshot_next [A] (onSnapshot_next [A; B] st))
         = [createTaskElement (task_of_doc A)]).
Proof.
  split; [|split].
  - intros snapshot st tasks. subst tasks.
    split; [apply onSnapshot_next_view|].
    split; [apply Array_sort_Permutation|].
    split; [apply Array_sort_ascending|].
    intros k. apply Array_sort_stable.
  - intros. rewrite onSnapshot_next_view. reflexivity.
  - intros. rewrite onSnapshot_next_view. reflexivity.
Qed.

(** C10.  The task list after the success callback depends on the snapshot
    alone: whatever the two states before, the same snapshot gives the same
    list. *)
Theorem onSnapshot_next_view_deterministic :
  forall (snapshot : list QueryDocumentSnapshot) (st1 st2 : State),
    view (onSnapshot_next snapshot st1) = view (onSnapshot_next snapshot st2).
Proof.
  intros. now rewrite !onSnapshot_next_view.
Qed.

(* ===================================================================== *)
(** ** Facts about addTask and the remove handler *)
(* ===================================================================== *)

Section Requests.

Variable appId : JsString.t.

Lemma notReady_no_user (st : State) : userId st = None -> notReady st = true.
Proof. unfold notReady. intros ->. apply orb_true_r. Qed.

Lemma addTask_blank (now : Z) (st : State) :
  JsString.trim (taskInput_value st) = [] ->
  addTask appId now st
  = Finished (showMessage (js "Please enter a task.") true st).
Proof. unfold addTask. intros ->. reflexivity. Qed.

Lemma addTask_notReady (now : Z) (st : State) :
  JsString.trim (taskInput_value st) <> [] ->
  notReady st = true ->
  addTask appId now st
  = Finished (showMessage (js "Database is not ready. Please wait.") true st).
Proof.
  unfold addTask. intros Ht ->. rewrite JsString_eqb_empty.
  destruct (JsString.trim (taskInput_value st)); [contradiction|reflexivity].
Qed.

Lemma addTask_ready (now : Z) (st : State) :
  JsString.trim (taskInput_value st) <> [] ->
  notReady st = false ->
  addTask appId now st
  = Awaiting
      (set_firestore
         (firestore st
            ++ [AddDoc (tasksPath appId st) (JsString.trim (taskInput_value st)) now])
         st).
Proof.
  unfold addTask. intros Ht ->. rewrite JsString_eqb_empty.
  destruct (JsString.trim (taskInput_value st)); [contradiction|reflexivity].
Qed.

(** Neither half of [addTask] touches the task list or the module
    variables, whatever happens in between. *)
Lemma addTask_view (now : Z) (st : State) :
  view (state_of (addTask appId now st)) = view st.
Proof.
  unfold addTask.
  destruct (JsString.eqb _ _); [reflexivity|].
  destruct (notReady st); reflexivity.
Qed.

Lemma addTask_settled_view (r : Settled) (st : State) :
  view (addTask_settled r st) = view st.
Proof. destruct r; reflexivity. Qed.

Lemma addTask_settled_issued (r : Settled) (st : State) :
  issued st (addTask_settled r st) = [].
Proof. destruct r; observe; reflexivity. Qed.

Lemma removeButton_onclick_view (task : Task) (st : State) :
  view (state_of (removeButton_onclick appId task st)) = view st.
Proof. unfold removeButton_onclick. destruct (notReady st); reflexivity. Qed.

Lemma removeButton_onclick_settled_view (r : Settled) (st : State) :
  view (removeButton_onclick_settled r st) = view st.
Proof. destruct r; reflexivity. Qed.

Lemma removeButton_onclick_settled_issued (r : Settled) (st : State) :
  issued st (removeButton_onclick_settled r st) = [].
Proof. destruct r; observe; reflexivity. Qed.

(** With the database and the user at hand, a click on a remove button
    sends one delete request for the task of the button, and an error is
    reported exactly when the request is rejected. *)
Lemma removeButton_onclick_ready (task : Task) (r : Settled) (st : State) :
  notReady st = false ->
  let st' :=
    complete removeButton_onclick_settled r (removeButton_onclick appId task st) in
  issued st st' = [DeleteDoc (tasksPath appId st) (id task)]
  /\ errors st st'
     = match r with Fulfilled => [] | Rejected _ => [OperationFailed] end.
Proof.
  intros Hr. unfold removeButton_onclick. rewrite Hr.
  destruct r; observe; split; reflexivity.
Qed.

(** A failed store operation of [addTask]: the error is reported and the
    local state is kept. *)
Lemma addTask_store_failure
      (now : Z) (r : Settled) (st : State) (E : ControllerError) :
  JsString.trim (taskInput_value st) <> [] ->
  storeOutcome st r = Some E ->
  let st' := complete addTask_settled r (addTask appId now st) in
  errors st st' = [E] /\ localState st' = localState st.
Proof.
  intros Htext Hout. unfold storeOutcome in Hout.
  destruct (notReady st) eqn:Hready.
  - injection Hout as <-. rewrite (addTask_notReady now st Htext Hready).
    split; observe; reflexivity.
  - destruct r as [|e]; [discriminate|]. injection Hout as <-.
    rewrite (addTask_ready now st Htext Hready).
    split; observe; reflexivity.
Qed.

(** The same for the remove handler. *)
Lemma removeButton_onclick_store_failure
      (task : Task) (r : Settled) (st : State) (E : ControllerError) :
  storeOutcome st r = Some E ->
  let st' :=
    complete removeButton_onclick_settled r (removeButton_onclick appId task st) in
  errors st st' = [E] /\ localState st' = localState st.
Proof.
  intros Hout. unfold storeOutcome in Hout. unfold removeButton_onclick.
  destruct (notReady st) eqn:Hready.
  - injection Hout as <-. split; observe; reflexivity.
  - destruct r as [|e]; [discriminate|]. injection Hout as <-.
    split; observe; reflexivity.
Qed.

End Requests.

(* ===================================================================== *)
(** ** addTask *)
(* ===================================================================== *)

(** C2.  When the text of the input field is empty after trimming,
    [addTask] returns before its [await], reports [ValidationError], makes
    no Firestore call and leaves the task list as it was. *)
Theorem addTask_blank_ValidationError :
  forall (appId : JsString.t) (now : Z) (r : Settled) (st : State),
    JsString.trim (taskInput_value st) = js "" ->
    let st' := complete addTask_settled r (addTask appId now st) in
    addTask appId now st = Finished st'
    /\ errors st st' = [ValidationError]
    /\ issued st st' = []
    /\ firestore st' = firestore st
    /\ view st' = view st.
Proof.
  intros appId now r st Hblank st'. subst st'.
  rewrite (addTask_blank appId now st Hblank). simpl.
  repeat split; observe; reflexivity.
Qed.

(** C3, as the script has it.  When the text is not empty after trimming,
    [addTask] sends one [addDoc] request, carrying the trimmed text and the
    reading of the clock, provided the database handle and the user id are
    both set, and no request otherwise; neither half of [addTask] changes
    the task list. *)
Theorem addTask_ready_one_create :
  forall (appId : JsString.t) (now : Z) (r : Settled) (st : State),
    JsString.trim (taskInput_value st) <> js "" ->
    let request :=
      AddDoc (tasksPath appId st) (JsString.trim (taskInput_value st)) now in
    let st' := complete addTask_settled r (addTask appId now st) in
    issued st (state_of (addTask appId now st))
    = (if notReady st then [] else [request])
    /\ issued st st' = (if notReady st then [] else [request])
    /\ view (state_of (addTask appId now st)) = view st
    /\ view st' = view st.
Proof.
  intros appId now r st Htext request st'. subst request st'.
  destruct (notReady st) eqn:Hready.
  - rewrite (addTask_notReady appId now st Htext Hready). simpl.
    repeat split; observe; reflexivity.
  - rewrite (addTask_ready appId now st Htext Hready). simpl.
    destruct r; repeat split; observe; reflexivity.
Qed.

(** C4.  When the store operation of [addTask] or of the remove handler
    fails, with [StoreUnavailable] because the page is not ready or with
    [OperationFailed] because the request is rejected, that error is the
    one reported and the local state is the one before the call. *)
Theorem store_failure_reported_state_kept :
  forall (appId : JsString.t) (now : Z) (task : Task) (r : Settled)
         (st : State) (E : ControllerError),
    storeOutcome st r = Some E ->
    let added := complete addTask_settled r (addTask appId now st) in
    let removed :=
      complete removeButton_onclick_settled r
        (removeButton_onclick appId task st) in
    (JsString.trim (taskInput_value st) <> js "" ->
     errors st added = [E] /\ localState added = localState st)
    /\ errors st removed = [E]
    /\ localState removed = localState st.
Proof.
  intros appId now task r st E Hout added removed. subst added removed.
  split; [intros Htext; now apply addTask_store_failure|].
  now apply removeButton_onclick_store_failure.
Qed.

(** C9.  [addTask] empties the input field after a fulfilled [addDoc] and
    at no other time: after a validation error, with the page not ready,
    or after a rejected [addDoc] the field holds what it held before. *)
Theorem addTask_clears_input_on_success_only :
  forall (appId : JsString.t) (now : Z) (r : Settled) (st : State),
    let st' := complete addTask_settled r (addTask appId now st) in
    (JsString.trim (taskInput_value st) = js "" ->
     errors st st' = [ValidationError]
     /\ taskInput_value st' = taskInput_value st)
    /\ (JsString.trim (taskInput_value st) <> js "" ->
        forall E, storeOutcome st r = Some E ->
        errors st st' = [E] /\ taskInput_value st' = taskInput_value st)
    /\ (JsString.trim (taskInput_value st) <> js "" ->
        storeOutcome st r = None ->
        errors st st' = [] /\ taskInput_value st' = js ""
        /\ taskInput_value (state_of (addTask appId now st)) = taskInput_value st).
Proof.
  intros appId now r st st'. subst st'. split; [|split].
  - intros Hblank. rewrite (addTask_blank appId now st Hblank).
    split; observe; reflexivity.
  - intros Htext E Hout.
    destruct (addTask_store_failure appId now r st E Htext Hout) as [He Hl].
    split; [exact He|].
    unfold localState in Hl. now injection Hl.
  - intros Htext Hout. unfold storeOutcome in Hout.
    destruct (notReady st) eqn:Hready; [discriminate|].
    destruct r as [|e]; [|discriminate].
    rewrite (addTask_ready appId now st Htext Hready).
    repeat split; observe; reflexivity.
Qed.

(* ===================================================================== *)
(** ** Facts about the runs of the page *)
(* ===================================================================== *)

Section Runs.

Variable appId : JsString.t.
Variable authToken : option JsString.t.

Lemma park_state (k : Continuation) (s : Step) (ks : list Continuation) :
  fst (park k s ks) = state_of s.
Proof. destruct s; reflexivity. Qed.

Lemma subscribed_app (st : State) (l : list StoreRequest) :
  existsb isOnSnapshot (firestore st ++ l)
  = subscribed st || existsb isOnSnapshot l.
Proof. unfold subscribed. apply existsb_app. Qed.

Lemma wellFormed_ready (st : State) :
  wellFormed st -> taskList st <> [] -> notReady st = false.
Proof.
  intros (Hdb & Hu & Hs & Hl & _) Hne. unfold notReady.
  destruct (db st); [|contradiction]. simpl.
  specialize (Hs (Hl Hne)).
  destruct (userId st) as [u|]; [|contradiction].
  now rewrite (Hu u eq_refl).
Qed.

Lemma wellFormed_initialState (input : JsString.t) :
  wellFormed (initialState input).
Proof.
  unfold wellFormed, subscribed. simpl.
  repeat split; try discriminate; try congruence; constructor.
Qed.

(** A state that differs from a well-formed one in neither the module
    variables nor the list, and has only gained requests that do not
    register a listener, is well formed. *)
Lemma wellFormed_frame (st st' : State) (l : list StoreRequest) :
  wellFormed st ->
  db st' = db st -> userId st' = userId st -> taskList st' = taskList st ->
  firestore st' = firestore st ++ l -> existsb isOnSnapshot l = false ->
  wellFormed st'.
Proof.
  intros (Hdb & Hu & Hs & Hl & Hf) Edb Eu El Ef Hno.
  assert (Esub : subscribed st' = subscribed st).
  { unfold subscribed at 1. rewrite Ef, subscribed_app, Hno.
    apply orb_false_r. }
  unfold wellFormed. rewrite Edb, Eu, El, Esub. auto.
Qed.

Lemma wellFormed_addTask (now : Z) (st : State) :
  wellFormed st -> wellFormed (state_of (addTask appId now st)).
Proof.
  intros H. unfold addTask.
  destruct (JsString.eqb _ _);
    [apply (wellFormed_frame st _ [] H); simpl; auto using app_nil_r|].
  destruct (notReady st).
  - apply (wellFormed_frame st _ [] H); simpl; auto using app_nil_r.
  - eapply (wellFormed_frame st _ _ H); simpl; reflexivity.
Qed.

Lemma wellFormed_removeButton_onclick (task : Task) (st : State) :
  wellFormed st -> wellFormed (state_of (removeButton_onclick appId task st)).
Proof.
  intros H. unfold removeButton_onclick. destruct (notReady st).
  - apply (wellFormed_frame st _ [] H); simpl; auto using app_nil_r.
  - eapply (wellFormed_frame st _ _ H); simpl; reflexivity.
Qed.

Lemma wellFormed_resumeWith (k : Continuation) (r : Settled) (st : State) :
  wellFormed st -> wellFormed (resumeWith k r st).
Proof.
  intros H.
  destruct k, r; simpl;
    apply (wellFormed_frame st _ [] H); simpl; auto using app_nil_r.
Qed.

Lemma wellFormed_onAuthStateChanged (user : option User) (st : State) :
  match user with Some u => JsString.truthy (uid u) | None => true end = true ->
  wellFormed st ->
  wellFormed (state_of (onAuthStateChanged_callback appId authToken user st)).
Proof.
  intros Huid H. destruct user as [u|]; simpl.
  - destruct H as (Hdb & Hu & Hs & Hl & Hf).
    unfold setupRealtimeListener, notReady. simpl.
    destruct (db st) eqn:Edb; [|contradiction]. rewrite Huid. simpl.
    unfold wellFormed, subscribed. simpl. rewrite Edb.
    repeat split; try discriminate; try assumption.
    + intros v Hv. injection Hv as <-. exact Huid.
    + intros _. rewrite existsb_app. simpl. apply orb_true_r.
  - apply (wellFormed_frame st _ [] H); simpl; auto using app_nil_r.
Qed.

Lemma wellFormed_onSnapshot_next
      (snapshot : list QueryDocumentSnapshot) (st : State) :
  subscribed st = true -> wellFormed st ->
  wellFormed (onSnapshot_next snapshot st).
Proof.
  intros Hsub (Hdb & Hu & Hs & Hl & Hf). rewrite onSnapshot_next_eq.
  unfold wellFormed, subscribed, showMessage. simpl.
  repeat split; try assumption.
  - intros _. exact Hsub.
  - unfold render. apply Forall_forall. intros li Hin.
    apply in_map_iff in Hin as (t & <- & _). reflexivity.
Qed.

Lemma handle_wellFormed (e : Event) (p p' : Page) :
  handle appId authToken e p = Some p' ->
  wellFormed (fst p) -> wellFormed (fst p').
Proof.
  destruct p as [st ks]. simpl. intros He H.
  destruct e as [value|now|index|k r|user|snapshot|error|]; simpl in He.
  - injection He as <-. simpl.
    apply (wellFormed_frame st _ [] H); simpl; auto using app_nil_r.
  - injection He as <-. rewrite park_state. now apply wellFormed_addTask.
  - destruct (nth_error (taskList st) index); [|discriminate].
    injection He as <-. rewrite park_state.
    now apply wellFormed_removeButton_onclick.
  - destruct (unpark k ks); [|discriminate].
    injection He as <-. simpl. now apply wellFormed_resumeWith.
  - destruct (match user with Some u => JsString.truthy (uid u) | None => true end)
      eqn:Huid; [|discriminate].
    injection He as <-. rewrite park_state.
    now apply wellFormed_onAuthStateChanged.
  - destruct (subscribed st) eqn:Hsub; [|discriminate].
    injection He as <-. simpl. now apply wellFormed_onSnapshot_next.
  - destruct (subscribed st); [|discriminate].
    injection He as <-. simpl.
    apply (wellFormed_frame st _ [] H); simpl; auto using app_nil_r.
  - destruct (timers st); [discriminate|].
    injection He as <-. simpl.
    apply (wellFormed_frame st _ [] H); simpl; auto using app_nil_r.
Qed.

(** The task list changes under no event but the delivery of a
    snapshot. *)
Lemma handle_view (e : Event) (p p' : Page) :
  handle appId authToken e p = Some p' ->
  (forall snapshot, e <> SnapshotDelivered snapshot) ->
  view (fst p') = view (fst p).
Proof.
  destruct p as [st ks]. simpl. intros He Hns.
  destruct e as [value|now|index|k r|user|snapshot|error|]; simpl in He.
  - now injection He as <-.
  - injection He as <-. rewrite park_state. apply addTask_view.
  - destruct (nth_error (taskList st) index); [|discriminate].
    injection He as <-. rewrite park_state. apply removeButton_onclick_view.
  - destruct (unpark k ks); [|discriminate].
    injection He as <-. now destruct k, r.
  - destruct (match user with Some u => JsString.truthy (uid u) | None => true end);
      [|discriminate].
    injection He as <-. rewrite park_state.
    destruct user as [u|]; simpl; [|reflexivity].
    unfold setupRealtimeListener. now destruct (notReady _).
  - now elim (Hns snapshot).
  - destruct (subscribed st); [|discriminate]. now injection He as <-.
  - destruct (timers st); [discriminate|]. now injection He as <-.
Qed.

Lemma run_wellFormed (es : list Event) (p p' : Page) :
  run appId authToken es p = Some p' ->
  wellFormed (fst p) -> wellFormed (fst p').
Proof.
  revert p; induction es as [|e es IH]; intros p Hrun H; simpl in Hrun.
  - now injection Hrun as <-.
  - destruct (handle appId authToken e p) as [p1|] eqn:He; [|discriminate].
    exact (IH p1 Hrun (handle_wellFormed _ _ _ He H)).
Qed.

Lemma reachable_wellFormed (p : Page) :
  reachable appId authToken p -> wellFormed (fst p).
Proof.
  intros (input & es & Hrun).
  apply (run_wellFormed _ _ _ Hrun). apply wellFormed_initialState.
Qed.

End Runs.

(* ===================================================================== *)
(** ** The remove handler, the gate and the created tasks *)
(* ===================================================================== *)

(** C5.  In every page the script can be in, a click on the remove button
    of a list item sends one [deleteDoc] request for the document id of the
    item, whether or not the store still holds that document (the handler
    never looks), and [OperationFailed] is reported exactly when the
    request is rejected. *)
Theorem removeTask_one_delete :
  forall (appId : JsString.t) (authToken : option JsString.t)
         (p : Page) (index : nat) (li : TaskElement) (r : Settled),
    reachable appId authToken p ->
    nth_error (view (fst p)) index = Some li ->
    let st := fst p in
    let st' :=
      complete removeButton_onclick_settled r
        (removeButton_onclick appId (btn_onclick (li_removeButton li)) st) in
    issued st st' = [DeleteDoc (tasksPath appId st) (li_data_doc_id li)]
    /\ (errors st st' = [OperationFailed] <-> exists e, r = Rejected e)
    /\ (errors st st' = [] <-> r = Fulfilled).
Proof.
  intros appId authToken p index li r Hreach Hnth st st'. subst st st'.
  pose proof (reachable_wellFormed _ _ _ Hreach) as Hwf.
  unfold view in Hnth.
  assert (Hne : taskList (fst p) <> []).
  { intros E. rewrite E in Hnth. destruct index; discriminate. }
  pose proof (wellFormed_ready _ Hwf Hne) as Hready.
  assert (Hid : id (btn_onclick (li_removeButton li)) = li_data_doc_id li).
  { destruct Hwf as (_ & _ & _ & _ & Hf).
    rewrite Forall_forall in Hf.
    pose proof (Hf li (nth_error_In _ _ Hnth)) as Hli.
    rewrite Hli at 2. reflexivity. }
  destruct (removeButton_onclick_ready appId
              (btn_onclick (li_removeButton li)) r (fst p) Hready) as [Hi He].
  rewrite Hid in Hi. split; [exact Hi|].
  rewrite He. destruct r as [|e]; split; split;
    try discriminate; try reflexivity; eauto.
  intros [e' He']. discriminate.
Qed.

(** C6, as the script has it.  While no user id is set, [addTask], the
    remove handler and [setupRealtimeListener] return without any Firestore
    call.  The remove handler reports [StoreUnavailable]; so does
    [addTask], unless the text is empty after trimming, which is checked
    first and reported as [ValidationError]; the listener set-up logs a
    warning and registers nothing. *)
Theorem no_store_call_without_user :
  forall (appId : JsString.t) (now : Z) (task : Task) (r : Settled) (st : State),
    userId st = None ->
    let added := complete addTask_settled r (addTask appId now st) in
    let removed :=
      complete removeButton_onclick_settled r
        (removeButton_onclick appId task st) in
    let listening := setupRealtimeListener appId st in
    (addTask appId now st = Finished added
     /\ issued st added = []
     /\ errors st added
        = [if JsString.eqb (JsString.trim (taskInput_value st)) (js "")
           then ValidationError else StoreUnavailable])
    /\ (removeButton_onclick appId task st = Finished removed
        /\ issued st removed = []
        /\ errors st removed = [StoreUnavailable])
    /\ (issued st listening = []
        /\ subscribed listening = subscribed st
        /\ console listening
           = console st
               ++ [ConsoleWarn
                     (js "Real-time listener skipped: DB or User ID not available.")]).
Proof.
  intros appId now task r st Huser added removed listening.
  subst added removed listening.
  pose proof (notReady_no_user st Huser) as Hgate.
  split; [|split].
  - unfold addTask. rewrite Hgate.
    destruct (JsString.eqb _ _); simpl; repeat split; observe; reflexivity.
  - unfold removeButton_onclick. rewrite Hgate. simpl.
    repeat split; observe; reflexivity.
  - unfold setupRealtimeListener. rewrite Hgate.
    repeat split; observe; reflexivity.
Qed.

(* ===================================================================== *)
(** ** The script on small inputs *)
(* ===================================================================== *)

Example trim_spaces : JsString.trim (js "  Buy milk ") = js "Buy milk".
Proof. reflexivity. Qed.

Example trim_inner_space_kept : JsString.trim (js "a b") = js "a b".
Proof. reflexivity. Qed.

(** TAB, NBSP, LF and U+3000 are stripped as well. *)
Example trim_unicode : JsString.trim ([9; 160; 10; 12288]%N ++ js "x") = js "x".
Proof. reflexivity. Qed.

Example trim_blank : JsString.trim (js "   ") = js "".
Proof. reflexivity. Qed.

(** Equal [createdAt]: the order of the snapshot is kept. *)
Example sort_ties :
  let task i c := {| id := i; text := js ""; createdAt := c |} in
  Array_sort byCreatedAt
    [task (js "x") 2%Z; task (js "y") 1%Z; task (js "z") 2%Z; task (js "w") 1%Z]
  = [task (js "y") 1%Z; task (js "w") 1%Z; task (js "x") 2%Z; task (js "z") 2%Z].
Proof. reflexivity. Qed.

Example snapshot_message :
  mb_textContent (messageBox (onSnapshot_next [milk] signedIn))
  = js "Loaded 1 tasks from the database."
  /\ shown (onSnapshot_next [milk] signedIn)
     = [(js "Loaded 1 tasks from the database.", false)].
Proof. split; reflexivity. Qed.

Example signedIn_listens :
  firestore signedIn = [OnSnapshot (js "artifacts/default-app-id/users/alice/tasks")]
  /\ userId signedIn = Some (js "alice")
  /\ userIdDisplay signedIn = js "User ID: <strong>alice</strong>".
Proof. repeat split; reflexivity. Qed.

(** Without a signed-in user, Firebase is asked to sign in anonymously. *)
Example signs_in_anonymously :
  pageAfter [AuthStateChanged None]
  = (set_authentication [SignInAnonymously] (initialState (js "")), [AfterSignIn]).
Proof. reflexivity. Qed.

(* ===================================================================== *)
(** ** The theorems at work on example pages *)
(* ===================================================================== *)

(** Three spaces in the input field of a fresh page. *)
Lemma addTask_blank_ValidationError_witness :
  let st := initialState (js "   ") in
  let st' := complete addTask_settled Fulfilled (addTask defaultAppId 0 st) in
  JsString.trim (taskInput_value st) = js ""
  /\ (addTask defaultAppId 0 st = Finished st'
      /\ errors st st' = [ValidationError]
      /\ issued st st' = []
      /\ firestore st' = firestore st
      /\ view st' = view st).
Proof.
  split; [reflexivity|].
  apply (addTask_blank_ValidationError defaultAppId 0 Fulfilled
           (initialState (js "   "))).
  reflexivity.
Defined.

(** Alice, signed in, adds "  Buy milk ": one request, for "Buy milk". *)
Lemma addTask_ready_one_create_witness :
  let request :=
    AddDoc (js "artifacts/default-app-id/users/alice/tasks") (js "Buy milk") 7 in
  let st' := complete addTask_settled Fulfilled (addTask defaultAppId 7 signedIn) in
  JsString.trim (taskInput_value signedIn) <> js ""
  /\ (issued signedIn (state_of (addTask defaultAppId 7 signedIn)) = [request]
      /\ issued signedIn st' = [request]
      /\ view (state_of (addTask defaultAppId 7 signedIn)) = view signedIn
      /\ view st' = view signedIn).
Proof.
  split; [discriminate|].
  apply (addTask_ready_one_create defaultAppId 7 Fulfilled signedIn).
  discriminate.
Defined.

(** C3 fails as stated: before anybody is signed in, [addTask] with the
    text "Buy milk" makes no Firestore call at all. *)
Lemma addTask_without_user_sends_nothing :
  let st := initialState (js "Buy milk") in
  let st' := complete addTask_settled Fulfilled (addTask defaultAppId 7 st) in
  JsString.trim (taskInput_value st) <> js ""
  /\ issued st st' = []
  /\ issued st st'
     <> [AddDoc (tasksPath defaultAppId st) (JsString.trim (taskInput_value st)) 7].
Proof.
  split; [discriminate|]. split; [reflexivity|]. discriminate.
Qed.

(** Alice is signed in and Firestore rejects her requests. *)
Lemma store_failure_reported_state_kept_witness :
  let e := MkJsError (js "permission-denied") in
  let task := task_of_doc milk in
  let added :=
    complete addTask_settled (Rejected e) (addTask defaultAppId 7 signedIn) in
  let removed :=
    complete removeButton_onclick_settled (Rejected e)
      (removeButton_onclick defaultAppId task signedIn) in
  storeOutcome signedIn (Rejected e) = Some OperationFailed
  /\ ((JsString.trim (taskInput_value signedIn) <> js "" ->
       errors signedIn added = [OperationFailed]
       /\ localState added = localState signedIn)
      /\ errors signedIn removed = [OperationFailed]
      /\ localState removed = localState signedIn).
Proof.
  split; [reflexivity|].
  apply (store_failure_reported_state_kept defaultAppId 7 (task_of_doc milk)
           (Rejected (MkJsError (js "permission-denied"))) signedIn
           OperationFailed).
  reflexivity.
Defined.

(** Alice removes the one task shown and Firestore rejects the request. *)
Lemma removeTask_one_delete_witness :
  let li := createTaskElement (task_of_doc milk) in
  let e := MkJsError (js "permission-denied") in
  let st := fst showingMilk in
  let st' :=
    complete removeButton_onclick_settled (Rejected e)
      (removeButton_onclick defaultAppId (btn_onclick (li_removeButton li)) st) in
  reachable defaultAppId None showingMilk
  /\ nth_error (view (fst showingMilk)) 0 = Some li
  /\ (issued st st'
      = [DeleteDoc (tasksPath defaultAppId st) (li_data_doc_id li)]
      /\ (errors st st' = [OperationFailed] <-> exists e', Rejected e = Rejected e')
      /\ (errors st st' = [] <-> Rejected e = Fulfilled)).
Proof.
  assert (Hreach : reachable defaultAppId None showingMilk).
  { exists (js ""), [AuthStateChanged (Some alice); SnapshotDelivered [milk]].
    reflexivity. }
  split; [exact Hreach|]. split; [reflexivity|].
  apply (removeTask_one_delete defaultAppId None showingMilk 0
           (createTaskElement (task_of_doc milk))
           (Rejected (MkJsError (js "permission-denied"))) Hreach).
  reflexivity.
Defined.

(** A fresh page, nobody signed in yet, 'Buy milk' typed. *)
Lemma no_store_call_without_user_witness :
  let st := initialState (js "Buy milk") in
  let task := task_of_doc milk in
  let added := complete addTask_settled Fulfilled (addTask defaultAppId 7 st) in
  let removed :=
    complete removeButton_onclick_settled Fulfilled
      (removeButton_onclick defaultAppId task st) in
  let listening := setupRealtimeListener defaultAppId st in
  userId st = None
  /\ ((addTask defaultAppId 7 st = Finished added
       /\ issued st added = []
       /\ errors st added
          = [if JsString.eqb (JsString.trim (taskInput_value st)) (js "")
             then ValidationError else StoreUnavailable])
      /\ (removeButton_onclick defaultAppId task st = Finished removed
          /\ issued st removed = []
          /\ errors st removed = [StoreUnavailable])
      /\ (issued st listening = []
          /\ subscribed listening = subscribed st
          /\ console listening
             = console st
                 ++ [ConsoleWarn
                       (js "Real-time listener skipped: DB or User ID not available.")])).
Proof.
  split; [reflexivity|].
  apply (no_store_call_without_user defaultAppId 7 (task_of_doc milk) Fulfilled
           (initialState (js "Buy milk"))).
  reflexivity.
Defined.

(** C6 fails as stated: with nobody signed in and an empty input field,
    [addTask] reports [ValidationError], not [StoreUnavailable]. *)
Lemma addTask_without_user_blank_is_ValidationError :
  let st := initialState (js "") in
  let added := complete addTask_settled Fulfilled (addTask defaultAppId 7 st) in
  userId st = None
  /\ errors st added = [ValidationError]
  /\ errors st added <> [StoreUnavailable].
Proof.
  split; [reflexivity|]. split; [reflexivity|]. discriminate.
Qed.

(** C8 fails as stated: when the clock is set back between two calls of
    [addTask], the task created first carries the greater [createdAt]. *)
Lemma createdAt_not_monotone_when_clock_set_back :
  let p := (initialState (js ""), []) in
  let p' := pageAfter twoTasksClockSetBack in
  let tasks := created (issued (fst p) (fst p')) in
  run defaultAppId None twoTasksClockSetBack p = Some p'
  /\ tasks = [(js "a", 5%Z); (js "b", 3%Z)]
  /\ ~ StronglySorted Z.le (map snd tasks).
Proof.
  split; [vm_compute; reflexivity|]. split; [vm_compute; reflexivity|].
  intros H. vm_compute in H.
  apply StronglySorted_inv in H as [_ H].
  apply Forall_inv in H. vm_compute in H. apply H. reflexivity.
Qed.

(** A blank field, a rejected request and a fulfilled one. *)
Lemma addTask_clears_input_on_success_only_witness :
  let blank := initialState (js "   ") in
  let e := MkJsError (js "permission-denied") in
  let run r st := complete addTask_settled r (addTask defaultAppId 7 st) in
  (JsString.trim (taskInput_value blank) = js ""
   /\ errors blank (run Fulfilled blank) = [ValidationError]
   /\ taskInput_value (run Fulfilled blank) = taskInput_value blank)
  /\ (JsString.trim (taskInput_value signedIn) <> js ""
      /\ storeOutcome signedIn (Rejected e) = Some OperationFailed
      /\ errors signedIn (run (Rejected e) signedIn) = [OperationFailed]
      /\ taskInput_value (run (Rejected e) signedIn) = taskInput_value signedIn)
  /\ (storeOutcome signedIn Fulfilled = None
      /\ errors signedIn (run Fulfilled signedIn) = []
      /\ taskInput_value (run Fulfilled signedIn) = js ""
      /\ taskInput_value (state_of (addTask defaultAppId 7 signedIn))
         = taskInput_value signedIn).
Proof.
  pose proof (addTask_clears_input_on_success_only defaultAppId 7 Fulfilled
                (initialState (js "   "))) as [Hblank _].
  pose proof (addTask_clears_input_on_success_only defaultAppId 7
                (Rejected (MkJsError (js "permission-denied"))) signedIn)
    as (_ & Hfail & _).
  pose proof (addTask_clears_input_on_success_only defaultAppId 7 Fulfilled
                signedIn) as (_ & _ & Hok).
  split; [|split].
  - split; [reflexivity|]. apply Hblank. reflexivity.
  - split; [discriminate|]. split; [reflexivity|].
    apply Hfail; [discriminate | reflexivity].
  - split; [reflexivity|]. apply Hok; [discriminate | reflexivity].
Defined.

(* ===================================================================== *)
(** ** More facts about strings *)
(* ===================================================================== *)

Lemma trimStart_suffix (s : JsString.t) :
  exists pre, s = pre ++ JsString.trimStart s.
Proof.
  induction s as [|c r [pre IH]]; simpl.
  - now exists [].
  - destruct (JsString.isWhiteSpace c).
    + exists (c :: pre). simpl. now rewrite <- IH.
    + now exists [].
Qed.

Lemma trim_last (s r : JsString.t) (c : N) :
  JsString.trim s = r ++ [c] -> JsString.isWhiteSpace c = false.
Proof.
  unfold JsString.trim, JsString.trimEnd. intros H.
  apply (f_equal (@rev N)) in H.
  rewrite rev_involutive, rev_app_distr in H. simpl in H.
  exact (trimStart_head _ _ _ H).
Qed.

Lemma trim_head (s r : JsString.t) (c : N) :
  JsString.trim s = c :: r -> JsString.isWhiteSpace c = false.
Proof.
  unfold JsString.trim, JsString.trimEnd. intros H.
  apply (f_equal (@rev N)) in H. rewrite rev_involutive in H. simpl in H.
  destruct (trimStart_suffix (rev (JsString.trimStart s))) as [pre Hpre].
  rewrite H in Hpre.
  apply (f_equal (@rev N)) in Hpre.
  rewrite rev_involutive, app_assoc, rev_app_distr in Hpre. simpl in Hpre.
  exact (trimStart_head _ _ _ Hpre).
Qed.

Lemma trim_trimmedText (s : JsString.t) :
  JsString.trim s <> [] -> trimmedText (JsString.trim s).
Proof.
  intros Hne. split; [exact Hne|]. split.
  - intros c r. apply trim_head.
  - intros r c. apply trim_last.
Qed.

(* ===================================================================== *)
(** ** More facts about the sort *)
(* ===================================================================== *)

Lemma createdAtIs_absent (k : Z) (l : list Task) :
  ~ In k (map createdAt l) -> createdAtIs k l = [].
Proof.
  unfold createdAtIs. induction l as [|a l IH]; simpl; intros Hin;
    [reflexivity|].
  destruct (createdAt a =? k)%Z eqn:E.
  - apply Z.eqb_eq in E. exfalso. apply Hin. now left.
  - apply IH. intros H. apply Hin. now right.
Qed.

Lemma createdAtIs_NoDup (k : Z) (l : list Task) :
  NoDup (map createdAt l) -> List.length (createdAtIs k l) <= 1.
Proof.
  induction l as [|a l IH]; simpl; intros Hnd; [lia|].
  apply NoDup_cons_iff in Hnd as [Hnotin Hnd].
  unfold createdAtIs in *. simpl.
  destruct (createdAt a =? k)%Z eqn:E.
  - apply Z.eqb_eq in E. subst k. simpl.
    pose proof (createdAtIs_absent (createdAt a) l Hnotin) as Habs.
    unfold createdAtIs in Habs. rewrite Habs. simpl. lia.
  - now apply IH.
Qed.

Lemma createdAtIs_Permutation (k : Z) (l1 l2 : list Task) :
  Permutation l1 l2 -> Permutation (createdAtIs k l1) (createdAtIs k l2).
Proof.
  unfold createdAtIs.
  induction 1 as [|x l l' _ IH|x y l|l l' l'' _ IH1 _ IH2]; simpl.
  - constructor.
  - destruct (createdAt x =? k)%Z; [now constructor | exact IH].
  - destruct (createdAt x =? k)%Z, (createdAt y =? k)%Z;
      try apply Permutation_refl. apply perm_swap.
  - eapply perm_trans; eassumption.
Qed.

(** Tasks with pairwise different [createdAt] are sorted to the same array
    whatever order they come in. *)
Lemma Array_sort_Permutation_NoDup (l1 l2 : list Task) :
  Permutation l1 l2 ->
  NoDup (map createdAt l1) ->
  Array_sort byCreatedAt l1 = Array_sort byCreatedAt l2.
Proof.
  intros Hp Hnd. apply ascending_createdAtIs_eq;
    try apply Array_sort_ascending.
  intros k. rewrite !Array_sort_stable.
  pose proof (createdAtIs_Permutation k _ _ Hp) as Hk.
  pose proof (createdAtIs_NoDup k l1 Hnd) as Hlen.
  pose proof (Permutation_length Hk) as Hlen2.
  destruct (createdAtIs k l1) as [|a [|b t]] eqn:E1; simpl in *.
  - apply Permutation_nil in Hk. now rewrite Hk.
  - apply Permutation_length_1_inv in Hk. now rewrite Hk.
  - lia.
Qed.

Lemma Array_sort_length (l : list Task) :
  List.length (Array_sort byCreatedAt l) = List.length l.
Proof. apply Permutation_length, Array_sort_Permutation. Qed.

(* ===================================================================== *)
(** ** What one event does, field by field *)
(* ===================================================================== *)

Section Events.

Variable appId : JsString.t.
Variable authToken : option JsString.t.

Lemma tasksPath_user (st : State) (u : JsString.t) :
  userId st = Some u -> tasksPath appId st = userTasksPath appId u.
Proof. unfold tasksPath, userTasksPath. now intros ->. Qed.

Lemma notReady_false_inv (st : State) :
  notReady st = false ->
  db st <> None
  /\ exists u, userId st = Some u /\ JsString.truthy u = true.
Proof.
  unfold notReady. intros H. apply orb_false_iff in H as [Hd Hu].
  destruct (db st); [|discriminate]. split; [discriminate|].
  destruct (userId st) as [u|]; [|discriminate].
  exists u. split; [reflexivity|]. now apply negb_false_iff in Hu.
Qed.

(** The module variables, the list and the two request traces after one
    event. *)
Lemma handle_fields (e : Event) (p p' : Page) :
  handle appId authToken e p = Some p' ->
  db (fst p') = db (fst p)
  /\ userId (fst p') = userOf e (userId (fst p))
  /\ isAuthReady (fst p') = isAuthReady (fst p) || isSignIn e
  /\ view (fst p') = viewOf e (view (fst p))
  /\ firestore (fst p') = firestore (fst p) ++ requestsOf appId e (fst p)
  /\ authentication (fst p')
     = authentication (fst p)
         ++ (if isSignOut e then [signInRequest authToken] else []).
Proof.
  destruct p as [st ks]. simpl. intros He.
  destruct e as [value|now|index|k r|user|snapshot|error|]; simpl in He.
  - injection He as <-. simpl. rewrite !app_nil_r, orb_false_r.
    repeat split; reflexivity.
  - injection He as <-. rewrite park_state. unfold addTask. simpl.
    rewrite JsString_eqb_empty, orb_false_r.
    destruct (JsString.trim (taskInput_value st)) as [|c t];
      [simpl; rewrite !app_nil_r; repeat split; reflexivity|].
    destruct (notReady st); simpl; rewrite ?app_nil_r;
      repeat split; reflexivity.
  - destruct (nth_error (taskList st) index) as [li|] eqn:Hli; [|discriminate].
    injection He as <-. rewrite park_state. unfold removeButton_onclick.
    simpl. rewrite Hli, orb_false_r.
    destruct (notReady st); simpl; rewrite ?app_nil_r;
      repeat split; reflexivity.
  - destruct (unpark k ks); [|discriminate].
    injection He as <-. simpl.
    destruct k, r; simpl; rewrite !app_nil_r, orb_false_r;
      repeat split; reflexivity.
  - destruct (match user with Some u => JsString.truthy (uid u) | None => true end)
      eqn:Huid; [|discriminate].
    injection He as <-. rewrite park_state.
    destruct user as [u|]; simpl.
    + unfold setupRealtimeListener, notReady. simpl. rewrite Huid.
      destruct (db st) eqn:Edb; simpl; rewrite ?app_nil_r, ?orb_true_r, ?Edb;
        repeat split; reflexivity.
    + rewrite !app_nil_r, orb_false_r. repeat split; reflexivity.
  - destruct (subscribed st); [|discriminate].
    injection He as <-. cbn [fst]. rewrite onSnapshot_next_eq. simpl.
    rewrite !app_nil_r, orb_false_r. repeat split; reflexivity.
  - destruct (subscribed st); [|discriminate].
    injection He as <-. simpl. rewrite !app_nil_r, orb_false_r.
    repeat split; reflexivity.
  - destruct (timers st); [discriminate|].
    injection He as <-. simpl. rewrite !app_nil_r, orb_false_r.
    repeat split; reflexivity.
Qed.

(** The message box after one event: untouched, or one message shown, or
    hidden by a timer. *)
Lemma handle_messageBox (e : Event) (p p' : Page) :
  handle appId authToken e p = Some p' ->
  (isTimerFired e = false
   /\ messageBox (fst p') = messageBox (fst p)
   /\ timers (fst p') = timers (fst p)
   /\ shown (fst p') = shown (fst p))
  \/ (isTimerFired e = false
      /\ mb_display (messageBox (fst p')) = js "block"
      /\ timers (fst p') = S (timers (fst p))
      /\ exists m, shown (fst p') = shown (fst p) ++ [m])
  \/ (isTimerFired e = true
      /\ mb_display (messageBox (fst p')) = js "none"
      /\ S (timers (fst p')) = timers (fst p)
      /\ shown (fst p') = shown (fst p)).
Proof.
  destruct p as [st ks]. simpl. intros He.
  destruct e as [value|now|index|k r|user|snapshot|error|]; simpl in He.
  - injection He as <-. left. auto.
  - injection He as <-. rewrite park_state. unfold addTask.
    destruct (JsString.eqb _ _); [right; left; simpl; eauto 6|].
    destruct (notReady st); [right; left; simpl; eauto 6 | left; auto].
  - destruct (nth_error (taskList st) index); [|discriminate].
    injection He as <-. rewrite park_state. unfold removeButton_onclick.
    destruct (notReady st); [right; left; simpl; eauto 6 | left; auto].
  - destruct (unpark k ks); [|discriminate].
    injection He as <-. simpl.
    destruct k, r; simpl; try (left; now auto); right; left; simpl; eauto 6.
  - destruct (match user with Some u => JsString.truthy (uid u) | None => true end);
      [|discriminate].
    injection He as <-. rewrite park_state.
    destruct user as [u|]; simpl; [|left; auto].
    unfold setupRealtimeListener. destruct (notReady _); left; auto.
  - destruct (subscribed st); [|discriminate].
    injection He as <-. cbn [fst]. rewrite onSnapshot_next_eq.
    right; left; simpl; eauto 6.
  - destruct (subscribed st); [|discriminate].
    injection He as <-. right; left; simpl; eauto 6.
  - destruct (timers st) as [|n] eqn:Ht; [discriminate|].
    injection He as <-. right; right. simpl. rewrite Ht. auto.
Qed.

Lemma unpark_last (k : Continuation) (ks : list Continuation) :
  exists ks', unpark k (ks ++ [k]) = Some ks'.
Proof.
  induction ks as [|k' ks [ks' IH]]; simpl.
  - destruct k; simpl; eauto.
  - destruct (Continuation_eqb k k'); [eauto|].
    rewrite IH. simpl. eauto.
Qed.

(** An invariant of single events is an invariant of runs. *)
Lemma run_invariant (I : Page -> Page -> Prop) :
  (forall p, I p p) ->
  (forall e p p1 p2,
      handle appId authToken e p1 = Some p2 -> I p p1 -> I p p2) ->
  forall es p p', run appId authToken es p = Some p' -> I p p'.
Proof.
  intros Hrefl Hstep es p p' Hrun.
  assert (G : forall q, I p q -> run appId authToken es q = Some p' -> I p p').
  { clear Hrun. induction es as [|e es IH]; intros q Hq Hrun; simpl in Hrun.
    - now injection Hrun as <-.
    - destruct (handle appId authToken e q) as [q1|] eqn:He; [|discriminate].
      exact (IH q1 (Hstep e p q q1 He Hq) Hrun). }
  exact (G p (Hrefl p) Hrun).
Qed.

Lemma run_firestore_app (es : list Event) (p p' : Page) :
  run appId authToken es p = Some p' ->
  firestore (fst p') = firestore (fst p) ++ issued (fst p) (fst p').
Proof.
  intros Hrun.
  assert (H : exists new, firestore (fst p') = firestore (fst p) ++ new).
  { refine (run_invariant
              (fun p p' => exists new, firestore (fst p') = firestore (fst p) ++ new)
              _ _ es p p' Hrun);
      [intros q; exists []; now rewrite app_nil_r|].
    intros e q p1 p2 He [new Hnew].
    destruct (handle_fields _ _ _ He) as (_ & _ & _ & _ & Hf & _).
    eexists. rewrite Hf, Hnew, <- app_assoc. reflexivity. }
  destruct H as [new Hnew]. now rewrite (issued_app _ _ _ Hnew).
Qed.

End Events.

Section RunFacts.

Variable appId : JsString.t.
Variable authToken : option JsString.t.

(** Induction along a run, first event first. *)
Lemma run_ind_events (I : list Event -> Page -> Page -> Prop) :
  (forall p, I [] p p) ->
  (forall e es p p1 p',
      handle appId authToken e p = Some p1 ->
      run appId authToken es p1 = Some p' ->
      I es p1 p' -> I (e :: es) p p') ->
  forall es p p', run appId authToken es p = Some p' -> I es p p'.
Proof.
  intros Hnil Hcons es. induction es as [|e es IH]; intros p p' Hrun;
    simpl in Hrun.
  - injection Hrun as <-. apply Hnil.
  - destruct (handle appId authToken e p) as [p1|] eqn:He; [|discriminate].
    exact (Hcons e es p p1 p' He Hrun (IH p1 p' Hrun)).
Qed.

Lemma issued_cons (e : Event) (es : list Event) (p p1 p' : Page) :
  handle appId authToken e p = Some p1 ->
  run appId authToken es p1 = Some p' ->
  issued (fst p) (fst p')
  = requestsOf appId e (fst p) ++ issued (fst p1) (fst p').
Proof.
  intros He Hrun.
  destruct (handle_fields _ _ _ _ _ He) as (_ & _ & _ & _ & Hf & _).
  pose proof (run_firestore_app _ _ _ _ _ Hrun) as Hr.
  apply issued_app. rewrite Hr, Hf, <- app_assoc. reflexivity.
Qed.

(** What holds of the requests of every single event holds of the
    requests of a run. *)
Lemma run_issued_Forall (Q : StoreRequest -> Prop) :
  (forall e st, Forall Q (requestsOf appId e st)) ->
  forall es p p',
    run appId authToken es p = Some p' ->
    Forall Q (issued (fst p) (fst p')).
Proof.
  intros HQ.
  apply (run_ind_events (fun _ p p' => Forall Q (issued (fst p) (fst p')))).
  - intros p. rewrite issued_refl. constructor.
  - intros e es p p1 p' He Hrun IH.
    rewrite (issued_cons _ _ _ _ _ He Hrun).
    apply Forall_app. split; [apply HQ | exact IH].
Qed.

Lemma requestsOf_trimmedText (e : Event) (st : State) :
  Forall (fun r => match r with
                   | AddDoc _ t _ => trimmedText t
                   | _ => True
                   end) (requestsOf appId e st).
Proof.
  destruct e as [value|now|index|k r|[u|]|snapshot|error|]; simpl;
    try constructor.
  - destruct (JsString.trim (taskInput_value st)) as [|c t] eqn:Et;
      [constructor|].
    destruct (notReady st); constructor; [|constructor].
    rewrite <- Et. apply trim_trimmedText. rewrite Et. discriminate.
  - destruct (nth_error (taskList st) index); [|constructor].
    destruct (notReady st); repeat constructor.
  - destruct (db st); [|constructor].
    destruct (JsString.truthy (uid u)); repeat constructor.
Qed.

Lemma requestsOf_wellAddressed (e : Event) (p p' : Page) :
  handle appId authToken e p = Some p' ->
  Forall (wellAddressed appId (fst p')) (requestsOf appId e (fst p)).
Proof.
  intros He.
  destruct (handle_fields _ _ _ _ _ He) as (_ & Hu & _).
  destruct p as [st ks]. simpl in *.
  destruct e as [value|now|index|k r|[u|]|snapshot|error|]; simpl in *;
    try constructor.
  - destruct (JsString.trim (taskInput_value st)); [constructor|].
    destruct (notReady st) eqn:Hr; constructor; [|constructor].
    destruct (notReady_false_inv st Hr) as (_ & v & Hv & Ht).
    exists v. split; [now rewrite Hu|]. split; [exact Ht|].
    now apply tasksPath_user.
  - destruct (nth_error (taskList st) index); [|constructor].
    destruct (notReady st) eqn:Hr; constructor; [|constructor].
    destruct (notReady_false_inv st Hr) as (_ & v & Hv & Ht).
    exists v. split; [now rewrite Hu|]. split; [exact Ht|].
    now apply tasksPath_user.
  - destruct (db st); [|constructor].
    destruct (JsString.truthy (uid u)) eqn:Ht; constructor; [|constructor].
    exists (uid u). split; [exact Hu|]. split; [exact Ht | reflexivity].
Qed.

Lemma handle_signIn_truthy (u : User) (p p' : Page) :
  handle appId authToken (AuthStateChanged (Some u)) p = Some p' ->
  JsString.truthy (uid u) = true.
Proof.
  destruct p as [st ks]. simpl.
  destruct (JsString.truthy (uid u)); [reflexivity | discriminate].
Qed.

Lemma requestsOf_listeners (e : Event) (p p' : Page) :
  handle appId authToken e p = Some p' ->
  db (fst p) <> None ->
  List.length (filter isOnSnapshot (requestsOf appId e (fst p)))
  = if isSignIn e then 1 else 0.
Proof.
  intros He Hdb.
  destruct e as [value|now|index|k r|[u|]|snapshot|error|]; simpl;
    try reflexivity.
  - destruct (JsString.trim (taskInput_value (fst p))); [reflexivity|].
    now destruct (notReady (fst p)).
  - destruct (nth_error (taskList (fst p)) index); [|reflexivity].
    now destruct (notReady (fst p)).
  - rewrite (handle_signIn_truthy _ _ _ He).
    destruct (db (fst p)); [reflexivity | contradiction].
Qed.

End RunFacts.

(* ===================================================================== *)
(** ** What the page does along a run *)
(* ===================================================================== *)

(** X1.  [addTask] reports [ValidationError] exactly when every code unit
    of the input field is white space (the empty text included). *)
Theorem addTask_ValidationError_iff_white_space :
  forall (appId : JsString.t) (now : Z) (r : Settled) (st : State),
    errors st (complete addTask_settled r (addTask appId now st))
    = [ValidationError]
    <-> forallb JsString.isWhiteSpace (taskInput_value st) = true.
Proof.
  intros appId now r st. rewrite <- trim_nil_iff. split.
  - intros He.
    destruct (JsString.trim (taskInput_value st)) as [|c t] eqn:Et;
      [reflexivity|exfalso].
    assert (Hne : JsString.trim (taskInput_value st) <> [])
      by (rewrite Et; discriminate).
    destruct (notReady st) eqn:Hr.
    + rewrite (addTask_notReady appId now st Hne Hr) in He.
      revert He. observe. discriminate.
    + rewrite (addTask_ready appId now st Hne Hr) in He.
      revert He. destruct r; observe; discriminate.
  - intros Hb. rewrite (addTask_blank appId now st Hb). observe. reflexivity.
Qed.

(** X2.  Along every run, the text of every task handed to [addDoc] is
    not empty and neither begins nor ends with white space. *)
Theorem addDoc_text_trimmed :
  forall (appId : JsString.t) (authToken : option JsString.t)
         (es : list Event) (p p' : Page),
    run appId authToken es p = Some p' ->
    forall path t c,
      In (AddDoc path t c) (issued (fst p) (fst p')) -> trimmedText t.
Proof.
  intros appId authToken es p p' Hrun path t c Hin.
  pose proof (run_issued_Forall appId authToken _
                (requestsOf_trimmedText appId) es p p' Hrun) as H.
  rewrite Forall_forall in H. exact (H _ Hin).
Qed.

(** X3.  Along every run, every Firestore request (add, delete, listen)
    is made by an event of the run whose handler ends with [userId]
    holding a non-empty user id [u], and is addressed to
    [artifacts/<appId>/users/<u>/tasks]: no request is made while
    [userId] is null or empty, and none goes to another user's
    collection. *)
Theorem requests_wellAddressed :
  forall (appId : JsString.t) (authToken : option JsString.t)
         (es : list Event) (p p' : Page),
    run appId authToken es p = Some p' ->
    forall r,
      In r (issued (fst p) (fst p')) ->
      exists es1 e es2 q q',
        es = es1 ++ e :: es2
        /\ run appId authToken es1 p = Some q
        /\ handle appId authToken e q = Some q'
        /\ In r (issued (fst q) (fst q'))
        /\ wellAddressed appId (fst q') r.
Proof.
  intros appId authToken.
  apply (run_ind_events appId authToken
           (fun es p p' =>
              forall r,
                In r (issued (fst p) (fst p')) ->
                exists es1 e es2 q q',
                  es = es1 ++ e :: es2
                  /\ run appId authToken es1 p = Some q
                  /\ handle appId authToken e q = Some q'
                  /\ In r (issued (fst q) (fst q'))
                  /\ wellAddressed appId (fst q') r)).
  - intros p r Hin. rewrite issued_refl in Hin. contradiction.
  - intros e es p p1 p' He Hrun IH r Hin.
    rewrite (issued_cons _ _ _ _ _ _ _ He Hrun) in Hin.
    apply in_app_or in Hin as [Hin|Hin].
    + exists [], e, es, p, p1.
      assert (Hi : issued (fst p) (fst p1) = requestsOf appId e (fst p)).
      { apply issued_app.
        now destruct (handle_fields _ _ _ _ _ He) as (_ & _ & _ & _ & Hf & _). }
      pose proof (requestsOf_wellAddressed appId authToken _ _ _ He) as Hw.
      rewrite Forall_forall in Hw.
      repeat split; try reflexivity; try assumption.
      * now rewrite Hi.
      * now apply Hw.
    + destruct (IH r Hin) as (es1 & e' & es2 & q & q' & -> & Hr1 & Hh & Hi & Hw).
      exists (e :: es1), e', es2, q, q'.
      repeat split; try assumption.
      simpl. now rewrite He.
Qed.

(** X4.  With the database handle set, a run registers one snapshot
    listener for each notification that a user is signed in, and none
    otherwise: listeners are added, never replaced. *)
Theorem one_listener_per_sign_in :
  forall (appId : JsString.t) (authToken : option JsString.t)
         (es : list Event) (p p' : Page),
    run appId authToken es p = Some p' ->
    db (fst p) <> None ->
    List.length (filter isOnSnapshot (issued (fst p) (fst p')))
    = List.length (filter isSignIn es).
Proof.
  intros appId authToken.
  apply (run_ind_events appId authToken
           (fun es p p' =>
              db (fst p) <> None ->
              List.length (filter isOnSnapshot (issued (fst p) (fst p')))
              = List.length (filter isSignIn es))).
  - intros p _. now rewrite issued_refl.
  - intros e es p p1 p' He Hrun IH Hdb.
    rewrite (issued_cons _ _ _ _ _ _ _ He Hrun), filter_app, length_app.
    rewrite (requestsOf_listeners _ _ _ _ _ He Hdb).
    destruct (handle_fields _ _ _ _ _ He) as (Edb & _).
    rewrite IH by (now rewrite Edb). simpl.
    now destruct (isSignIn e).
Qed.

(** X5.  A run asks Firebase to sign in once for each notification that
    nobody is signed in, with the custom token when a non-empty one was
    provided and anonymously otherwise, and at no other time. *)
Theorem one_sign_in_per_sign_out :
  forall (appId : JsString.t) (authToken : option JsString.t)
         (es : list Event) (p p' : Page),
    run appId authToken es p = Some p' ->
    authentication (fst p')
    = authentication (fst p)
        ++ repeat (signInRequest authToken) (List.length (filter isSignOut es)).
Proof.
  intros appId authToken.
  apply (run_ind_events appId authToken
           (fun es p p' =>
              authentication (fst p')
              = authentication (fst p)
                  ++ repeat (signInRequest authToken)
                       (List.length (filter isSignOut es)))).
  - intros p. simpl. now rewrite app_nil_r.
  - intros e es p p1 p' He Hrun IH.
    destruct (handle_fields _ _ _ _ _ He) as (_ & _ & _ & _ & _ & Ha).
    rewrite IH, Ha, <- app_assoc. simpl.
    now destruct (isSignOut e).
Qed.

(** X6.  After a run, [userId] is the id of the user of the last sign-in
    notification, or what it was before when there was none: a
    notification that nobody is signed in does not clear it. *)
Theorem userId_is_last_signed_in :
  forall (appId : JsString.t) (authToken : option JsString.t)
         (es : list Event) (p p' : Page),
    run appId authToken es p = Some p' ->
    userId (fst p') = userAfter es (userId (fst p)).
Proof.
  intros appId authToken.
  apply (run_ind_events appId authToken
           (fun es p p' => userId (fst p') = userAfter es (userId (fst p)))).
  - reflexivity.
  - intros e es p p1 p' He Hrun IH.
    destruct (handle_fields _ _ _ _ _ He) as (_ & Hu & _).
    unfold userAfter in *. simpl. now rewrite IH, Hu.
Qed.

(** X7.  After a run, the task list is the rendering of the last snapshot
    delivered, or what it was before when none was delivered: adding,
    removing, signing in and failures never touch the list. *)
Theorem view_is_last_snapshot :
  forall (appId : JsString.t) (authToken : option JsString.t)
         (es : list Event) (p p' : Page),
    run appId authToken es p = Some p' ->
    view (fst p') = viewAfter es (view (fst p)).
Proof.
  intros appId authToken.
  apply (run_ind_events appId authToken
           (fun es p p' => view (fst p') = viewAfter es (view (fst p)))).
  - reflexivity.
  - intros e es p p1 p' He Hrun IH.
    destruct (handle_fields _ _ _ _ _ He) as (_ & _ & _ & Hv & _).
    unfold viewAfter in *. simpl. now rewrite IH, Hv.
Qed.

(** X8.  In every page the script can be in, [isAuthReady] is true
    exactly when [userId] is set. *)
Theorem isAuthReady_iff_userId :
  forall (appId : JsString.t) (authToken : option JsString.t) (p : Page),
    reachable appId authToken p ->
    (isAuthReady (fst p) = true <-> userId (fst p) <> None).
Proof.
  intros appId authToken p (input & es & Hrun).
  refine (run_invariant appId authToken
            (fun p p' =>
               (isAuthReady (fst p) = true <-> userId (fst p) <> None) ->
               (isAuthReady (fst p') = true <-> userId (fst p') <> None))
            _ _ es _ p Hrun _).
  - auto.
  - intros e q p1 p2 He IH H0. specialize (IH H0).
    destruct (handle_fields _ _ _ _ _ He) as (_ & Hu & Hr & _).
    rewrite Hu, Hr.
    destruct e as [value|now|index|k r|[u|]|snapshot|error|]; simpl;
      rewrite ?orb_false_r; try exact IH.
    rewrite orb_true_r. split; [discriminate | reflexivity].
  - simpl. split; [discriminate | congruence].
Qed.

(** X9.  The success callback announces, in the success style, the number
    of documents of the snapshot, which is also the number of list items
    it leaves; it reports no error and makes no Firestore call. *)
Theorem onSnapshot_next_announces_count :
  forall (snapshot : list QueryDocumentSnapshot) (st : State),
    let st' := onSnapshot_next snapshot st in
    mb_textContent (messageBox st')
    = js "Loaded " ++ JsString.of_nat (List.length snapshot)
        ++ js " tasks from the database."
    /\ mb_backgroundColor (messageBox st') = js "#d4edda"
    /\ mb_display (messageBox st') = js "block"
    /\ List.length (view st') = List.length snapshot
    /\ errors st st' = []
    /\ issued st st' = [].
Proof.
  intros snapshot st st'. subst st'. rewrite onSnapshot_next_eq.
  assert (Hlen : List.length (render snapshot) = List.length snapshot).
  { unfold render. now rewrite length_map, Array_sort_length, length_map. }
  rewrite Hlen. repeat split; observe; try reflexivity. exact Hlen.
Qed.

(** X10.  Every message shown sets one timer and every timer that fires
    removes one: after a run, the timers pending and the timers fired add
    up to the timers pending before and the messages shown. *)
Theorem timers_account_for_messages :
  forall (appId : JsString.t) (authToken : option JsString.t)
         (es : list Event) (p p' : Page),
    run appId authToken es p = Some p' ->
    timers (fst p') + List.length (filter isTimerFired es)
    = timers (fst p) + List.length (shownSince (fst p) (fst p')).
Proof.
  intros appId authToken es p p' Hrun.
  assert (H : exists msgs,
             shown (fst p') = shown (fst p) ++ msgs
             /\ timers (fst p') + List.length (filter isTimerFired es)
                = timers (fst p) + List.length msgs).
  { revert es p p' Hrun.
    apply (run_ind_events appId authToken
             (fun es p p' =>
                exists msgs,
                  shown (fst p') = shown (fst p) ++ msgs
                  /\ timers (fst p') + List.length (filter isTimerFired es)
                     = timers (fst p) + List.length msgs)).
    - intros p. exists []. simpl. rewrite app_nil_r. split; [reflexivity | lia].
    - intros e es p p1 p' He Hrun (msgs & Hs & Ht).
      destruct (handle_messageBox _ _ _ _ _ He)
        as [(Hf & _ & Et & Es) | [(Hf & _ & Et & m & Es) | (Hf & _ & Et & Es)]];
        simpl; rewrite Hf; simpl.
      + exists msgs. rewrite Hs, Es. split; [reflexivity | lia].
      + exists (m :: msgs). rewrite Hs, Es, <- app_assoc.
        split; [reflexivity | simpl; lia].
      + exists msgs. rewrite Hs, Es. split; [reflexivity | simpl; lia]. }
  destruct H as (msgs & Hs & Ht).
  unfold shownSince. now rewrite Hs, skipn_length_app.
Qed.

(** X11.  In every page the script can be in, the message box is hidden
    whenever no timer is pending: no message stays on screen for ever. *)
Theorem message_hidden_when_no_timer :
  forall (appId : JsString.t) (authToken : option JsString.t) (p : Page),
    reachable appId authToken p ->
    timers (fst p) = 0 ->
    mb_display (messageBox (fst p)) = js "none".
Proof.
  intros appId authToken p (input & es & Hrun).
  refine (run_invariant appId authToken
            (fun p p' =>
               (timers (fst p) = 0 -> mb_display (messageBox (fst p)) = js "none") ->
               (timers (fst p') = 0 -> mb_display (messageBox (fst p')) = js "none"))
            _ _ es _ p Hrun _).
  - auto.
  - intros e q p1 p2 He IH H0 Hz. specialize (IH H0).
    destruct (handle_messageBox _ _ _ _ _ He)
      as [(_ & Em & Et & _) | [(_ & _ & Et & _) | (_ & Ed & _)]].
    + rewrite Em. apply IH. now rewrite <- Et.
    + rewrite Et in Hz. discriminate.
    + exact Ed.
  - reflexivity.
Qed.

(** X12.  A timer does not know its message: when two messages are shown
    one after the other, the first timer that fires hides the second
    message, whose own timer is still pending. *)
Theorem earlier_timer_hides_later_message :
  forall (m1 m2 : JsString.t) (b1 b2 : bool) (st : State),
    let st' := hideMessage (showMessage m2 b2 (showMessage m1 b1 st)) in
    mb_textContent (messageBox st') = m2
    /\ mb_display (messageBox st') = js "none"
    /\ timers st' = S (timers st)
    /\ shownSince st st' = [(m1, b1); (m2, b2)].
Proof.
  intros m1 m2 b1 b2 st st'. subst st'. unfold shownSince.
  destruct b1, b2; simpl; rewrite <- app_assoc, skipn_length_app;
    repeat split; reflexivity.
Qed.

(** X13.  [addTask] does not wait for the request before: called twice
    before the first [addDoc] settles, it sends the same text twice. *)
Theorem addTask_twice_sends_twice :
  forall (appId : JsString.t) (authToken : option JsString.t)
         (now1 now2 : Z) (st : State) (ks : list Continuation),
    JsString.trim (taskInput_value st) <> js "" ->
    notReady st = false ->
    let t := JsString.trim (taskInput_value st) in
    exists p',
      run appId authToken [AddTaskCalled now1; AddTaskCalled now2] (st, ks)
      = Some p'
      /\ issued st (fst p')
         = [AddDoc (tasksPath appId st) t now1; AddDoc (tasksPath appId st) t now2]
      /\ snd p' = ks ++ [AfterAddDoc; AfterAddDoc].
Proof.
  intros appId authToken now1 now2 st ks Htext Hready t. subst t.
  simpl. rewrite (addTask_ready appId now1 st Htext Hready). simpl.
  set (st1 := set_firestore _ st).
  assert (Htext1 : JsString.trim (taskInput_value st1) <> js "") by exact Htext.
  assert (Hready1 : notReady st1 = false) by exact Hready.
  rewrite (addTask_ready appId now2 st1 Htext1 Hready1). simpl.
  eexists. split; [reflexivity|]. split.
  - apply issued_app. simpl. rewrite <- app_assoc. reflexivity.
  - simpl. now rewrite <- app_assoc.
Qed.

(** X14.  Once the [addDoc] of a call is fulfilled the input field is
    empty, so a second call right after it sends nothing and reports
    [ValidationError]. *)
Theorem addTask_after_success_is_blank :
  forall (appId : JsString.t) (authToken : option JsString.t)
         (now1 now2 : Z) (st : State) (ks : list Continuation),
    JsString.trim (taskInput_value st) <> js "" ->
    notReady st = false ->
    exists p',
      run appId authToken
        [AddTaskCalled now1; PromiseSettled AfterAddDoc Fulfilled;
         AddTaskCalled now2] (st, ks)
      = Some p'
      /\ issued st (fst p')
         = [AddDoc (tasksPath appId st) (JsString.trim (taskInput_value st)) now1]
      /\ errors st (fst p') = [ValidationError]
      /\ taskInput_value (fst p') = js "".
Proof.
  intros appId authToken now1 now2 st ks Htext Hready.
  simpl. rewrite (addTask_ready appId now1 st Htext Hready). simpl.
  destruct (unpark_last AfterAddDoc ks) as [ks' ->]. simpl.
  eexists. split; [reflexivity|]. simpl.
  repeat split; observe; reflexivity.
Qed.

(** X15.  The input field is emptied when the [addDoc] is fulfilled, not
    when [addTask] is called: what the user types in between is lost on
    fulfilment and kept on rejection. *)
Theorem late_fulfilment_clears_new_input :
  forall (appId : JsString.t) (authToken : option JsString.t)
         (now : Z) (typed : JsString.t) (r : Settled)
         (st : State) (ks : list Continuation),
    JsString.trim (taskInput_value st) <> js "" ->
    notReady st = false ->
    exists p',
      run appId authToken
        [AddTaskCalled now; UserTypes typed; PromiseSettled AfterAddDoc r]
        (st, ks)
      = Some p'
      /\ taskInput_value (fst p')
         = match r with Fulfilled => js "" | Rejected _ => typed end.
Proof.
  intros appId authToken now typed r st ks Htext Hready.
  simpl. rewrite (addTask_ready appId now st Htext Hready). simpl.
  destruct (unpark_last AfterAddDoc ks) as [ks' ->].
  eexists. split; [reflexivity|]. now destruct r.
Qed.

(** X16.  When the documents of a snapshot have pairwise different
    [createdAt], the list shown does not depend on the order in which the
    snapshot lists them. *)
Theorem render_order_independent :
  forall (s1 s2 : list QueryDocumentSnapshot) (st1 st2 : State),
    Permutation s1 s2 ->
    NoDup (map (fun d => data_createdAt (doc_data d)) s1) ->
    view (onSnapshot_next s1 st1) = view (onSnapshot_next s2 st2).
Proof.
  intros s1 s2 st1 st2 Hp Hnd. rewrite !onSnapshot_next_view. unfold render.
  f_equal. apply Array_sort_Permutation_NoDup.
  - now apply Permutation_map.
  - rewrite map_map. exact Hnd.
Qed.

(** X17.  The list item at position [i] after a snapshot belongs to the
    task at position [i] of the sorted snapshot: it carries the id of that
    document, and a click on its button asks Firestore to delete that
    document in the collection of the current user. *)
Theorem rendered_button_deletes_its_document :
  forall (appId : JsString.t) (snapshot : list QueryDocumentSnapshot)
         (i : nat) (t : Task) (st : State),
    notReady st = false ->
    nth_error (Array_sort byCreatedAt (map task_of_doc snapshot)) i = Some t ->
    let st1 := onSnapshot_next snapshot st in
    exists li,
      nth_error (view st1) i = Some li
      /\ li_data_doc_id li = id t
      /\ li_textContent li = text t
      /\ issued st1
           (state_of
              (removeButton_onclick appId (btn_onclick (li_removeButton li)) st1))
         = [DeleteDoc (tasksPath appId st) (id t)].
Proof.
  intros appId snapshot i t st Hready Hnth st1. subst st1.
  exists (createTaskElement t).
  rewrite onSnapshot_next_view. unfold render.
  split; [now apply map_nth_error|].
  split; [reflexivity|]. split; [reflexivity|].
  rewrite onSnapshot_next_eq. unfold removeButton_onclick.
  assert (Hr : notReady
                 (showMessage
                    (js "Loaded " ++ JsString.of_nat (List.length (render snapshot))
                       ++ js " tasks from the database.") false
                    (set_taskList (render snapshot) st)) = false) by exact Hready.
  rewrite Hr. observe. reflexivity.
Qed.

(* ===================================================================== *)
(** ** Start-up *)
(* ===================================================================== *)

(** X18.  When [initializeApp], [getFirestore] or [getAuth] throws, the
    error is logged but the failure message is never shown: the message
    box does not exist yet, [showMessage] throws in the [catch] block and
    the promise of [initializeAppAndAuth] is rejected with that
    [TypeError].  No auth listener is registered. *)
Theorem boot_sdk_failure_is_silent :
  forall (env : Boot.Environment) (e : JsError),
    Boot.sdkThrows env = Some e ->
    let s := fst (Boot.initializeAppAndAuth env) in
    snd (Boot.initializeAppAndAuth env) = Rejected Boot.TypeError
    /\ Boot.early_console s
       = [ConsoleError (js "Firebase Initialization Error:") e]
    /\ Boot.early_shown s = []
    /\ Boot.early_messageBox s = None
    /\ Boot.early_authListener s = false
    /\ (forall input, Boot.toState input s = None).
Proof.
  intros [[e1|] [e2|] [e3|] todo h1] e; unfold Boot.sdkThrows; simpl;
    intros He; try discriminate; injection He as <-;
    repeat split; reflexivity.
Qed.

(** X19.  The auth listener is registered exactly when no SDK call throws
    and the page has its [#todo-app] element with an [h1]; the function
    then leaves the fresh page: database handle set, nobody signed in,
    message box hidden, status "Initializing". *)
Theorem boot_healthy_gives_initialState :
  forall (env : Boot.Environment) (input : JsString.t),
    let s := fst (Boot.initializeAppAndAuth env) in
    (Boot.early_authListener s = true <-> Boot.healthy env = true)
    /\ (Boot.healthy env = true ->
        snd (Boot.initializeAppAndAuth env) = Fulfilled
        /\ Boot.early_inserted s = true
        /\ Boot.toState input s = Some (initialState input)).
Proof.
  intros [[e1|] [e2|] [e3|] [|] [|]] input; simpl; split;
    try (split; discriminate); try discriminate;
    try (split; reflexivity); intros _; repeat split; reflexivity.
Qed.

(** X20.  When the SDK calls succeed but [#todo-app] or its [h1] is
    missing, the promise is fulfilled all the same; the failure message is
    written into a message box that was never inserted into the page, and
    no auth listener is registered, so that nobody is ever signed in. *)
Theorem boot_missing_heading_is_invisible :
  forall (env : Boot.Environment),
    Boot.sdkThrows env = None ->
    Boot.healthy env = false ->
    let s := fst (Boot.initializeAppAndAuth env) in
    snd (Boot.initializeAppAndAuth env) = Fulfilled
    /\ Boot.early_shown s
       = [(js "Application failed to initialize. Check console.", true)]
    /\ option_map mb_display (Boot.early_messageBox s) = Some (js "block")
    /\ Boot.early_inserted s = false
    /\ Boot.early_authListener s = false
    /\ Boot.early_db s = Some FirestoreHandle
    /\ Boot.early_console s
       = [ConsoleError (js "Firebase Initialization Error:") Boot.TypeError].
Proof.
  intros [[e1|] [e2|] [e3|] [|] [|]]; unfold Boot.sdkThrows; simpl;
    intros Hs Hh; try discriminate; repeat split; reflexivity.
Qed.

(* ===================================================================== *)
(** ** The further theorems at work on example pages *)
(* ===================================================================== *)

(** Two tasks added by Alice: the text of the first is "a". *)
Lemma addDoc_text_trimmed_witness :
  let p := (initialState (js ""), []) in
  let request :=
    AddDoc (js "artifacts/default-app-id/users/alice/tasks") (js "a") 3 in
  run defaultAppId None twoTasks p = Some (pageAfter twoTasks)
  /\ In request (issued (fst p) (fst (pageAfter twoTasks)))
  /\ trimmedText (js "a").
Proof.
  assert (Hrun : run defaultAppId None twoTasks (initialState (js ""), [])
                 = Some (pageAfter twoTasks)) by (vm_compute; reflexivity).
  assert (Hin : In (AddDoc (js "artifacts/default-app-id/users/alice/tasks")
                      (js "a") 3)
                  (issued (initialState (js "")) (fst (pageAfter twoTasks)))).
  { vm_compute. right. left. reflexivity. }
  split; [exact Hrun|]. split; [exact Hin|].
  exact (addDoc_text_trimmed defaultAppId None twoTasks _ _ Hrun _ _ _ Hin).
Defined.

(** The listener of Alice is addressed to the collection of Alice. *)
Lemma requests_wellAddressed_witness :
  let p := (initialState (js ""), []) in
  let request := OnSnapshot (js "artifacts/default-app-id/users/alice/tasks") in
  run defaultAppId None twoTasks p = Some (pageAfter twoTasks)
  /\ In request (issued (fst p) (fst (pageAfter twoTasks)))
  /\ exists es1 e es2 q q',
       twoTasks = es1 ++ e :: es2
       /\ run defaultAppId None es1 p = Some q
       /\ handle defaultAppId None e q = Some q'
       /\ In request (issued (fst q) (fst q'))
       /\ wellAddressed defaultAppId (fst q') request.
Proof.
  assert (Hrun : run defaultAppId None twoTasks (initialState (js ""), [])
                 = Some (pageAfter twoTasks)) by (vm_compute; reflexivity).
  assert (Hin : In (OnSnapshot (js "artifacts/default-app-id/users/alice/tasks"))
                  (issued (initialState (js "")) (fst (pageAfter twoTasks)))).
  { vm_compute. left. reflexivity. }
  split; [exact Hrun|]. split; [exact Hin|].
  exact (requests_wellAddressed defaultAppId None twoTasks _ _ Hrun _ Hin).
Defined.

(** Alice is notified as signed in twice: two listeners. *)
Lemma one_listener_per_sign_in_witness :
  let es := [AuthStateChanged (Some alice); AuthStateChanged (Some alice)] in
  let p := (initialState (js ""), []) in
  run defaultAppId None es p = Some (pageAfter es)
  /\ db (fst p) <> None
  /\ List.length (filter isOnSnapshot (issued (fst p) (fst (pageAfter es))))
     = List.length (filter isSignIn es).
Proof.
  assert (Hrun : run defaultAppId None
                   [AuthStateChanged (Some alice); AuthStateChanged (Some alice)]
                   (initialState (js ""), [])
                 = Some (pageAfter [AuthStateChanged (Some alice);
                                    AuthStateChanged (Some alice)]))
    by (vm_compute; reflexivity).
  split; [exact Hrun|]. split; [discriminate|].
  apply (one_listener_per_sign_in defaultAppId None _ _ _ Hrun). discriminate.
Defined.

(** Nobody is signed in and there is no token: one anonymous sign-in. *)
Lemma one_sign_in_per_sign_out_witness :
  let es := [AuthStateChanged None; UserTypes (js "a")] in
  let p := (initialState (js ""), []) in
  run defaultAppId None es p = Some (pageAfter es)
  /\ authentication (fst (pageAfter es))
     = authentication (fst p)
         ++ repeat (signInRequest None) (List.length (filter isSignOut es)).
Proof.
  assert (Hrun : run defaultAppId None [AuthStateChanged None; UserTypes (js "a")]
                   (initialState (js ""), [])
                 = Some (pageAfter [AuthStateChanged None; UserTypes (js "a")]))
    by (vm_compute; reflexivity).
  split; [exact Hrun|].
  exact (one_sign_in_per_sign_out defaultAppId None _ _ _ Hrun).
Defined.

(** Alice signs in and is then reported signed out: the id stays. *)
Lemma userId_is_last_signed_in_witness :
  let es := [AuthStateChanged (Some alice); AuthStateChanged None] in
  let p := (initialState (js ""), []) in
  run defaultAppId None es p = Some (pageAfter es)
  /\ userId (fst (pageAfter es)) = userAfter es (userId (fst p))
  /\ userAfter es (userId (fst p)) = Some (js "alice").
Proof.
  assert (Hrun : run defaultAppId None
                   [AuthStateChanged (Some alice); AuthStateChanged None]
                   (initialState (js ""), [])
                 = Some (pageAfter [AuthStateChanged (Some alice);
                                    AuthStateChanged None]))
    by (vm_compute; reflexivity).
  split; [exact Hrun|].
  split; [exact (userId_is_last_signed_in defaultAppId None _ _ _ Hrun)|].
  reflexivity.
Defined.

(** A snapshot with the milk, then a failure of the listener: the milk
    stays on the list. *)
Lemma view_is_last_snapshot_witness :
  let es := [AuthStateChanged (Some alice); SnapshotDelivered [milk];
             SnapshotFailed (MkJsError (js "unavailable"))] in
  let p := (initialState (js ""), []) in
  run defaultAppId None es p = Some (pageAfter es)
  /\ view (fst (pageAfter es)) = viewAfter es (view (fst p))
  /\ viewAfter es (view (fst p)) = render [milk].
Proof.
  assert (Hrun : run defaultAppId None
                   [AuthStateChanged (Some alice); SnapshotDelivered [milk];
                    SnapshotFailed (MkJsError (js "unavailable"))]
                   (initialState (js ""), [])
                 = Some (pageAfter
                           [AuthStateChanged (Some alice); SnapshotDelivered [milk];
                            SnapshotFailed (MkJsError (js "unavailable"))]))
    by (vm_compute; reflexivity).
  split; [exact Hrun|].
  split; [exact (view_is_last_snapshot defaultAppId None _ _ _ Hrun)|].
  reflexivity.
Defined.

(** The page that shows the milk is reachable. *)
Lemma isAuthReady_iff_userId_witness :
  reachable defaultAppId None showingMilk
  /\ (isAuthReady (fst showingMilk) = true <-> userId (fst showingMilk) <> None).
Proof.
  assert (Hreach : reachable defaultAppId None showingMilk).
  { exists (js ""), [AuthStateChanged (Some alice); SnapshotDelivered [milk]].
    vm_compute. reflexivity. }
  split; [exact Hreach|].
  exact (isAuthReady_iff_userId defaultAppId None showingMilk Hreach).
Defined.

(** A validation message and its timer. *)
Lemma timers_account_for_messages_witness :
  let es := [AddTaskCalled 0; TimerFired; AddTaskCalled 1] in
  let p := (initialState (js ""), []) in
  run defaultAppId None es p = Some (pageAfter es)
  /\ timers (fst (pageAfter es)) + List.length (filter isTimerFired es)
     = timers (fst p) + List.length (shownSince (fst p) (fst (pageAfter es))).
Proof.
  assert (Hrun : run defaultAppId None [AddTaskCalled 0; TimerFired; AddTaskCalled 1]
                   (initialState (js ""), [])
                 = Some (pageAfter [AddTaskCalled 0; TimerFired; AddTaskCalled 1]))
    by (vm_compute; reflexivity).
  split; [exact Hrun|].
  exact (timers_account_for_messages defaultAppId None _ _ _ Hrun).
Defined.

(** A validation message whose timer has fired. *)
Lemma message_hidden_when_no_timer_witness :
  let p := pageAfter [AddTaskCalled 0; TimerFired] in
  reachable defaultAppId None p
  /\ timers (fst p) = 0
  /\ mb_display (messageBox (fst p)) = js "none".
Proof.
  assert (Hreach : reachable defaultAppId None
                     (pageAfter [AddTaskCalled 0; TimerFired])).
  { exists (js ""), [AddTaskCalled 0; TimerFired]. vm_compute. reflexivity. }
  split; [exact Hreach|]. split; [reflexivity|].
  apply (message_hidden_when_no_timer defaultAppId None _ Hreach). reflexivity.
Defined.

(** Alice clicks twice before Firestore answers. *)
Lemma addTask_twice_sends_twice_witness :
  let path := js "artifacts/default-app-id/users/alice/tasks" in
  JsString.trim (taskInput_value signedIn) <> js ""
  /\ notReady signedIn = false
  /\ exists p',
       run defaultAppId None [AddTaskCalled 7; AddTaskCalled 8] (signedIn, [])
       = Some p'
       /\ issued signedIn (fst p')
          = [AddDoc (tasksPath defaultAppId signedIn)
               (JsString.trim (taskInput_value signedIn)) 7;
             AddDoc (tasksPath defaultAppId signedIn)
               (JsString.trim (taskInput_value signedIn)) 8]
       /\ snd p' = [] ++ [AfterAddDoc; AfterAddDoc].
Proof.
  split; [discriminate|]. split; [reflexivity|].
  apply (addTask_twice_sends_twice defaultAppId None 7 8 signedIn []).
  - discriminate.
  - reflexivity.
Defined.

(** Alice clicks again after Firestore has answered. *)
Lemma addTask_after_success_is_blank_witness :
  JsString.trim (taskInput_value signedIn) <> js ""
  /\ notReady signedIn = false
  /\ exists p',
       run defaultAppId None
         [AddTaskCalled 7; PromiseSettled AfterAddDoc Fulfilled; AddTaskCalled 8]
         (signedIn, [])
       = Some p'
       /\ issued signedIn (fst p')
          = [AddDoc (tasksPath defaultAppId signedIn)
               (JsString.trim (taskInput_value signedIn)) 7]
       /\ errors signedIn (fst p') = [ValidationError]
       /\ taskInput_value (fst p') = js "".
Proof.
  split; [discriminate|]. split; [reflexivity|].
  apply (addTask_after_success_is_blank defaultAppId None 7 8 signedIn []).
  - discriminate.
  - reflexivity.
Defined.

(** Alice types "Call mum" while "Buy milk" is on its way. *)
Lemma late_fulfilment_clears_new_input_witness :
  JsString.trim (taskInput_value signedIn) <> js ""
  /\ notReady signedIn = false
  /\ exists p',
       run defaultAppId None
         [AddTaskCalled 7; UserTypes (js "Call mum");
          PromiseSettled AfterAddDoc Fulfilled] (signedIn, [])
       = Some p'
       /\ taskInput_value (fst p') = js "".
Proof.
  split; [discriminate|]. split; [reflexivity|].
  apply (late_fulfilment_clears_new_input defaultAppId None 7 (js "Call mum")
           Fulfilled signedIn []).
  - discriminate.
  - reflexivity.
Defined.

(** The milk and the bread, listed in the two possible orders. *)
Lemma render_order_independent_witness :
  let bread :=
    {| doc_id := js "d2";
       doc_data := {| data_text := js "Buy bread"; data_createdAt := 2000 |} |} in
  Permutation [milk; bread] [bread; milk]
  /\ NoDup (map (fun d => data_createdAt (doc_data d)) [milk; bread])
  /\ view (onSnapshot_next [milk; bread] signedIn)
     = view (onSnapshot_next [bread; milk] (initialState (js ""))).
Proof.
  assert (Hnd : NoDup (map (fun d => data_createdAt (doc_data d))
                         [milk;
                          {| doc_id := js "d2";
                             doc_data := {| data_text := js "Buy bread";
                                            data_createdAt := 2000 |} |}])).
  { simpl. constructor; [|constructor; [|constructor]].
    - intros [H|[]]. discriminate.
    - intros []. }
  split; [apply perm_swap|]. split; [exact Hnd|].
  exact (render_order_independent _ _ signedIn (initialState (js ""))
           (perm_swap _ _ []) Hnd).
Defined.

(** The one item shown for the milk deletes document "d1". *)
Lemma rendered_button_deletes_its_document_witness :
  let st1 := onSnapshot_next [milk] signedIn in
  notReady signedIn = false
  /\ nth_error (Array_sort byCreatedAt (map task_of_doc [milk])) 0
     = Some (task_of_doc milk)
  /\ exists li,
       nth_error (view st1) 0 = Some li
       /\ li_data_doc_id li = id (task_of_doc milk)
       /\ li_textContent li = text (task_of_doc milk)
       /\ issued st1
            (state_of
               (removeButton_onclick defaultAppId
                  (btn_onclick (li_removeButton li)) st1))
          = [DeleteDoc (tasksPath defaultAppId signedIn) (id (task_of_doc milk))].
Proof.
  split; [reflexivity|]. split; [reflexivity|].
  apply (rendered_button_deletes_its_document defaultAppId [milk] 0
           (task_of_doc milk) signedIn); reflexivity.
Defined.

(** [getFirestore] throws. *)
Lemma boot_sdk_failure_is_silent_witness :
  let e := MkJsError (js "projectId not provided") in
  let env :=
    {| Boot.initializeApp_throws := None;
       Boot.getFirestore_throws := Some e;
       Boot.getAuth_throws := None;
       Boot.has_todo_app := true;
       Boot.has_h1 := true |} in
  let s := fst (Boot.initializeAppAndAuth env) in
  Boot.sdkThrows env = Some e
  /\ (snd (Boot.initializeAppAndAuth env) = Rejected Boot.TypeError
      /\ Boot.early_console s
         = [ConsoleError (js "Firebase Initialization Error:") e]
      /\ Boot.early_shown s = []
      /\ Boot.early_messageBox s = None
      /\ Boot.early_authListener s = false
      /\ (forall input, Boot.toState input s = None)).
Proof.
  split; [reflexivity|].
  apply (boot_sdk_failure_is_silent
           {| Boot.initializeApp_throws := None;
              Boot.getFirestore_throws :=
                Some (MkJsError (js "projectId not provided"));
              Boot.getAuth_throws := None;
              Boot.has_todo_app := true;
              Boot.has_h1 := true |}
           (MkJsError (js "projectId not provided"))).
  reflexivity.
Defined.

(** Nothing throws and the page is complete. *)
Lemma boot_healthy_gives_initialState_witness :
  let env :=
    {| Boot.initializeApp_throws := None;
       Boot.getFirestore_throws := None;
       Boot.getAuth_throws := None;
       Boot.has_todo_app := true;
       Boot.has_h1 := true |} in
  let s := fst (Boot.initializeAppAndAuth env) in
  Boot.healthy env = true
  /\ (snd (Boot.initializeAppAndAuth env) = Fulfilled
      /\ Boot.early_inserted s = true
      /\ Boot.toState (js "") s = Some (initialState (js ""))).
Proof.
  split; [reflexivity|].
  apply (boot_healthy_gives_initialState
           {| Boot.initializeApp_throws := None;
              Boot.getFirestore_throws := None;
              Boot.getAuth_throws := None;
              Boot.has_todo_app := true;
              Boot.has_h1 := true |} (js "")).
  reflexivity.
Defined.

(** The page has its [#todo-app] element but no [h1] in it. *)
Lemma boot_missing_heading_is_invisible_witness :
  let env :=
    {| Boot.initializeApp_throws := None;
       Boot.getFirestore_throws := None;
       Boot.getAuth_throws := None;
       Boot.has_todo_app := true;
       Boot.has_h1 := false |} in
  let s := fst (Boot.initializeAppAndAuth env) in
  Boot.sdkThrows env = None
  /\ Boot.healthy env = false
  /\ (snd (Boot.initializeAppAndAuth env) = Fulfilled
      /\ Boot.early_shown s
         = [(js "Application failed to initialize. Check console.", true)]
      /\ option_map mb_display (Boot.early_messageBox s) = Some (js "block")
      /\ Boot.early_inserted s = false
      /\ Boot.early_authListener s = false
      /\ Boot.early_db s = Some FirestoreHandle
      /\ Boot.early_console s
         = [ConsoleError (js "Firebase Initialization Error:") Boot.TypeError]).
Proof.
  split; [reflexivity|]. split; [reflexivity|].
  apply (boot_missing_heading_is_invisible
           {| Boot.initializeApp_throws := None;
              Boot.getFirestore_throws := None;
              Boot.getAuth_throws := None;
              Boot.has_todo_app := true;
              Boot.has_h1 := false |}); reflexivity.
Defined.

(* ===================================================================== *)
(** ** The clock and the created tasks *)
(* ===================================================================== *)

Lemma created_app (l l' : list StoreRequest) :
  created (l ++ l') = created l ++ created l'.
Proof. unfold created. apply flat_map_app. Qed.

(** The task an event creates: none, unless the event is a call of
    [addTask] that takes a reading of the clock; then the task carries the
    trimmed text, which is not empty, and that reading. *)
Lemma created_requestsOf (appId : JsString.t) (e : Event) (st : State) :
  created (requestsOf appId e st)
  = match e with
    | AddTaskCalled now =>
        if readsClock appId now st
        then [(JsString.trim (taskInput_value st), now)] else []
    | _ => []
    end
  /\ Forall (fun tc => fst tc <> js "") (created (requestsOf appId e st)).
Proof.
  destruct e as [value|now|index|k r|[u|]|snapshot|error|]; simpl;
    try (split; [reflexivity | constructor]).
  - unfold readsClock, addTask. rewrite JsString_eqb_empty.
    destruct (JsString.trim (taskInput_value st)) as [|c t] eqn:Et;
      [split; [reflexivity | constructor]|].
    destruct (notReady st); simpl; split; try reflexivity; repeat constructor.
    simpl. discriminate.
  - destruct (nth_error (taskList st) index); [|split; [reflexivity|constructor]].
    destruct (notReady st); split; try reflexivity; constructor.
  - destruct (db st); [|split; [reflexivity|constructor]].
    destruct (JsString.truthy (uid u)); split; try reflexivity; constructor.
Qed.

(** C8, as the script has it.  Along every run of the page, each task
    handed to [addDoc] has a non-empty text, and the [createdAt] of the
    tasks, in the order of their creation, are the readings of
    [Date.now()] taken by the [addTask] calls that reach [addDoc], in the
    order of the calls: each task carries the reading of its own call.
    When these readings never decrease, neither do the [createdAt]. *)
Theorem created_tasks_follow_clock :
  forall (appId : JsString.t) (authToken : option JsString.t)
         (es : list Event) (p p' : Page),
    run appId authToken es p = Some p' ->
    let tasks := created (issued (fst p) (fst p')) in
    Forall (fun tc => fst tc <> js "") tasks
    /\ map snd tasks = clockReadings appId authToken es p
    /\ (Sorted Z.le (clockReadings appId authToken es p) ->
        StronglySorted Z.le (map snd tasks)).
Proof.
  intros appId authToken es p p' Hrun tasks. subst tasks.
  assert (H : Forall (fun tc => fst tc <> js "")
                (created (issued (fst p) (fst p')))
              /\ map snd (created (issued (fst p) (fst p')))
                 = clockReadings appId authToken es p).
  { revert es p p' Hrun.
    apply (run_ind_events appId authToken
             (fun es p p' =>
                Forall (fun tc => fst tc <> js "")
                  (created (issued (fst p) (fst p')))
                /\ map snd (created (issued (fst p) (fst p')))
                   = clockReadings appId authToken es p)).
    - intros p. rewrite issued_refl. split; [constructor | reflexivity].
    - intros e es p p1 p' He Hrun [IHne IHeq].
      rewrite (issued_cons _ _ _ _ _ _ _ He Hrun), created_app.
      destruct (created_requestsOf appId e (fst p)) as [Hc Hne].
      split; [apply Forall_app; now split|].
      rewrite map_app, IHeq. simpl. rewrite He. f_equal.
      rewrite Hc. destruct e; try reflexivity.
      now destruct (readsClock appId now (fst p)). }
  destruct H as [Hne Heq]. split; [exact Hne|]. split; [exact Heq|].
  intros Hsorted. rewrite Heq.
  apply Sorted_StronglySorted; [|exact Hsorted].
  intros x y z. apply Z.le_trans.
Qed.

(** A call on an empty field while the clock reads 9 takes no reading; the
    two tasks that follow carry 3 and 5. *)
Lemma created_tasks_follow_clock_witness :
  let p := (initialState (js ""), []) in
  let p' := pageAfter twoTasksAfterBlankCall in
  let tasks := created (issued (fst p) (fst p')) in
  run defaultAppId None twoTasksAfterBlankCall p = Some p'
  /\ Sorted Z.le (clockReadings defaultAppId None twoTasksAfterBlankCall p)
  /\ clockReadings defaultAppId None twoTasksAfterBlankCall p = [3; 5]%Z
  /\ (Forall (fun tc => fst tc <> js "") tasks
      /\ map snd tasks = clockReadings defaultAppId None twoTasksAfterBlankCall p
      /\ (Sorted Z.le (clockReadings defaultAppId None twoTasksAfterBlankCall p) ->
          StronglySorted Z.le (map snd tasks))).
Proof.
  split; [vm_compute; reflexivity|].
  split; [vm_compute; repeat constructor; discriminate|].
  split; [vm_compute; reflexivity|].
  apply (created_tasks_follow_clock defaultAppId None twoTasksAfterBlankCall
           (initialState (js ""), []) (pageAfter twoTasksAfterBlankCall)).
  vm_compute; reflexivity.
Defined.

(* ===================================================================== *)
(** ** Errors and recovery *)
(* ===================================================================== *)

Section Recovery.

Variable appId : JsString.t.
Variable authToken : option JsString.t.






End Recovery.



